(** * LCS-FTLE-Optimized: the discrete fast FTLE driver

    A shallow embedding of [fast_computation/discrete_fast_lcs_computation.cpp]
    (and of [GetPrecision], which [create_discrete_data.cpp] repeats verbatim):
    the configuration reader, the file-name builders, [GetPrecision], and the
    two loops of [main] (step flow maps, then composition and FTLE).

    C++ [double] values are IEEE-754 binary64 numbers, taken from the
    executable specification [SpecFloat] of the standard library
    ([prec = 53], [emax = 1024]); nothing is idealised to real numbers. *)

From Stdlib Require Import ZArith Ascii String DecimalString Floats.SpecFloat.
From stdpp Require Import gmap strings.

Local Open Scope Z_scope.

(** ** binary64 arithmetic, as the C++ code uses it *)

Module Double.

Definition double : Type := spec_float.

Definition prec : Z := 53.
Definition emax : Z := 1024.

Definition add : double -> double -> double := SFadd prec emax.
Definition sub : double -> double -> double := SFsub prec emax.
Definition mul : double -> double -> double := SFmul prec emax.
Definition div : double -> double -> double := SFdiv prec emax.
Definition opp : double -> double := SFopp.
Definition abs : double -> double := SFabs.
Definition ltb : double -> double -> bool := SFltb.
Definition zero : double := S754_zero false.

(** Conversion of an integer ([int], [long long]) to [double]: rounded to
    nearest, ties to even. *)
Definition of_int (z : Z) : double := binary_normalize prec emax z 0 false.

(** The integer obtained by discarding the fractional part of a finite
    double (rounding toward zero). *)
Definition truncate (x : double) : option Z :=
  match x with
  | S754_zero _ => Some 0
  | S754_finite s m e =>
      let q := match e with
               | Zneg p => Z.shiftr (Zpos m) (Zpos p)
               | _ => Z.shiftl (Zpos m) e
               end in
      Some (if s then - q else q)
  | S754_infinity _ | S754_nan => None
  end.

(** [static_cast<long long>(x)]: the truncated value when it fits in 64
    signed bits; otherwise (and for infinities and NaN) the conversion is
    undefined, rendered here as [None]. *)
Definition to_long_long (x : double) : option Z :=
  match truncate x with
  | Some z => if (- 2 ^ 63 <=? z) && (z <? 2 ^ 63) then Some z else None
  | None => None
  end.

(** [static_cast<int>(x)], with the same convention on 32 bits. *)
Definition to_int (x : double) : option Z :=
  match truncate x with
  | Some z => if (- 2 ^ 31 <=? z) && (z <? 2 ^ 31) then Some z else None
  | None => None
  end.

(** The double nearest to the fraction [n / d], as a decimal literal such
    as [0.2] denotes it. *)
Definition ratio (n d : Z) : double := div (of_int n) (of_int d).

End Double.

Abbreviation double := Double.double.

(** ** [std::fixed << std::setprecision(P) << x]

    The text a stream produces for a double in fixed notation with [P]
    digits after the point: the exact binary value rounded to [P] decimals,
    ties to even. This belongs to the C++ runtime, not to the repository; it
    is written out so that file names can be computed. *)

Definition digits (n : Z) : string :=
  NilZero.string_of_uint (N.to_uint (Z.to_N n)).

Definition round_half_even (n d : Z) : Z :=
  let q := n / d in
  match 2 * (n mod d) ?= d with
  | Lt => q
  | Gt => q + 1
  | Eq => if Z.even q then q else q + 1
  end.

(** [q] counts units of [10^-P]. *)
Definition decimal (P q : Z) : string :=
  if P <=? 0 then digits q
  else digits (q / 10 ^ P) +:+ "." +:+
       match digits (10 ^ P + q mod 10 ^ P) with
       | String _ fraction => fraction
       | EmptyString => EmptyString
       end.

Definition sign_text (s : bool) : string := if s then "-" else "".

Definition fixed (P : Z) (x : double) : string :=
  match x with
  | S754_nan => "nan"
  | S754_infinity s => sign_text s +:+ "inf"
  | S754_zero s => sign_text s +:+ decimal P 0
  | S754_finite s m e =>
      sign_text s +:+
      decimal P (match e with
                 | Zneg p => round_half_even (Zpos m * 10 ^ P) (2 ^ Zpos p)
                 | _ => Zpos m * 2 ^ e * 10 ^ P
                 end)
  end.

(** [(std::filesystem::path(p) / q).string()] on a POSIX system: an absolute
    right operand replaces the left one; otherwise a separator is inserted
    unless the left operand is empty or already ends with one. *)
Definition ends_with_slash (p : string) : bool :=
  match String.get (Nat.pred (String.length p)) p with
  | Some c => bool_decide (c = "/"%char)
  | None => false
  end.

Definition is_absolute (q : string) : bool :=
  match q with
  | String c _ => bool_decide (c = "/"%char)
  | EmptyString => false
  end.

Definition path_join (p q : string) : string :=
  if is_absolute q then q
  else if bool_decide (p = "") || ends_with_slash p then p +:+ q
  else p +:+ "/" +:+ q.

(** ** [GetPrecision] *)

(** What a loop of the model yields: a value, undefined behaviour of the C++
    abstract machine, or an unfinished run (the iteration budget of the
    model was used up before the loop exited). *)
Inductive Result (A : Type) : Type :=
| Value (a : A)
| Undefined
| Unfinished.
Arguments Value {A} a.
Arguments Undefined {A}.
Arguments Unfinished {A}.

(** The loop condition [std::abs(num - static_cast<long long>(num)) > 0]:
    [None] when the cast is undefined. *)
Definition has_fraction (num : double) : option bool :=
  match Double.to_long_long num with
  | None => None
  | Some n =>
      Some (Double.ltb Double.zero
              (Double.abs (Double.sub num (Double.of_int n))))
  end.

(** <<
    int GetPrecision(double num) {
        int precision = 0;
        while (std::abs(num - static_cast<long long>(num)) > 0) {
            num *= 10;
            precision++;
        }
        return precision;
    }
    >>
    [fuel] bounds the number of times the loop condition is evaluated. *)
Fixpoint GetPrecision_loop (fuel : nat) (num : double) (precision : Z)
  : Result Z :=
  match fuel with
  | O => Unfinished
  | S fuel' =>
      match has_fraction num with
      | None => Undefined
      | Some true =>
          GetPrecision_loop fuel' (Double.mul num (Double.of_int 10))
            (precision + 1)
      | Some false => Value precision
      end
  end.

Definition GetPrecision (fuel : nat) (num : double) : Result Z :=
  GetPrecision_loop fuel num 0.

(** ** The configuration document

    [nlohmann::json] is a vendored third-party header; only the behaviour
    [main] relies on is rendered: [json[key]] on a (non-const) object yields
    the member, or a freshly inserted [null] when the key is absent, and the
    implicit conversion to a C++ type throws [type_error] when the value has
    the wrong kind. Nothing in [main] catches it. *)

Inductive json_value : Type :=
| json_null
| json_boolean (b : bool)
| json_integer (z : Z)
| json_float (d : double)
| json_string (s : string)
| json_array
| json_object.

(** The parsed document: the members of its top-level object. *)
Abbreviation json := (gmap string json_value).

Inductive Failure : Type :=
| parse_error                         (* [file >> json] threw *)
| not_an_object                       (* [json[key]] threw: no object *)
| type_error (key : string)           (* conversion of [json[key]] threw *)
| undefined_conversion (key : string) (* number outside the range of [int] *)
| precision_undefined                 (* [GetPrecision] left defined behaviour *)
| precision_unfinished                (* [GetPrecision] did not return in time *)
| io_error (path : string).           (* a step-flow-map file could not be read *)

Definition json_at (j : json) (key : string) : json_value :=
  default json_null (j !! key).

Definition wrap_int (z : Z) : Z := (z + 2 ^ 31) mod 2 ^ 32 - 2 ^ 31.

Definition get_double (j : json) (key : string) : Failure + double :=
  match json_at j key with
  | json_boolean b => inr (Double.of_int (if b then 1 else 0))
  | json_integer z => inr (Double.of_int z)
  | json_float d => inr d
  | _ => inl (type_error key)
  end.

Definition get_int (j : json) (key : string) : Failure + Z :=
  match json_at j key with
  | json_boolean b => inr (if b then 1 else 0)
  | json_integer z => inr (wrap_int z)
  | json_float d =>
      match Double.to_int d with
      | Some z => inr z
      | None => inl (undefined_conversion key)
      end
  | _ => inl (type_error key)
  end.

Definition get_string (j : json) (key : string) : Failure + string :=
  match json_at j key with
  | json_string s => inr s
  | _ => inl (type_error key)
  end.

Record Settings : Type := {
  x_min : double; x_max : double; y_min : double; y_max : double;
  nx : double; ny : double; data_nx : double; data_ny : double;
  t_min : double; t_max : double; data_delta_t : double;
  steps : Z;
  file_prefix : string;
  direction : string
}.

Definition and_then {A B : Type} (r : Failure + A) (k : A -> Failure + B)
  : Failure + B :=
  match r with
  | inl f => inl f
  | inr a => k a
  end.

(** Lines 50-63 of [main], in order: the first conversion that throws ends
    the program. *)
Definition read_settings (j : json) : Failure + Settings :=
  and_then (get_double j "x_min") (fun x_min =>
  and_then (get_double j "x_max") (fun x_max =>
  and_then (get_double j "y_min") (fun y_min =>
  and_then (get_double j "y_max") (fun y_max =>
  and_then (get_double j "nx") (fun nx =>
  and_then (get_double j "ny") (fun ny =>
  and_then (get_double j "data_nx") (fun data_nx =>
  and_then (get_double j "data_ny") (fun data_ny =>
  and_then (get_double j "t_min") (fun t_min =>
  and_then (get_double j "t_max") (fun t_max =>
  and_then (get_double j "data_delta_t") (fun data_delta_t =>
  and_then (get_int j "steps") (fun steps =>
  and_then (get_string j "file_prefix") (fun file_prefix =>
  and_then (get_string j "direction") (fun direction =>
  inr {| x_min := x_min; x_max := x_max; y_min := y_min; y_max := y_max;
         nx := nx; ny := ny; data_nx := data_nx; data_ny := data_ny;
         t_min := t_min; t_max := t_max; data_delta_t := data_delta_t;
         steps := steps; file_prefix := file_prefix;
         direction := direction |})))))))))))))).

(** The keys [main] reads. *)
Definition recognized_keys : list string :=
  [ "x_min"; "x_max"; "y_min"; "y_max"; "nx"; "ny"; "data_nx"; "data_ny";
    "t_min"; "t_max"; "data_delta_t"; "steps"; "file_prefix"; "direction" ]%string.

(** What the program finds at [fast_computation/sim_params.json]. *)
Inductive config_file : Type :=
| Unopenable              (* the file cannot be opened *)
| Malformed               (* the text is not JSON *)
| NotAnObject             (* JSON, but an array, a number, a text or a boolean *)
| Document (j : json).    (* an object; [null] behaves as the empty object *)

Inductive Direction : Type := Forward | Backward.

(** The time of the flow field after [k] calls of [UpdateTime] from [t]. *)
Definition load_time (t signed_delta : double) (k : nat) : double :=
  Nat.iter k (fun t => Double.add t signed_delta) t.

(** ** What the program prints on standard output

    Each constructor is one output statement of [main]; it carries the
    values the statement interpolates instead of their rendering, and
    wall-clock figures are left out. *)
Inductive Message : Type :=
| msg_number_of_threads
| msg_settings (values : list json_value)
| msg_forward_begins
| msg_backward_begins
| msg_direction_must_be_set
| msg_start_step_flow_maps (t : double)
| msg_calculate_step_flow_map (i steps : Z) (t_from t_to : double)
| msg_blank
| msg_initial_loop_ended (steps : Z)
| msg_fast_calculation (i steps : Z) (t_from t_to : double)
| msg_calculate_ftle (t : double)
| msg_timestep_finished
| msg_fast_calculation_ended
| msg_calculation_times (steps : Z).

(** ** The flow field and the numerical kernels

    The field, flow and FTLE classes of the library ([field.hpp],
    [flow.hpp], [ftle.hpp]) are not among the sources. The state of a flow
    field that [main] reads back is a record; the numerical kernels are the
    members of an interface, so that every result below holds whatever they
    compute. *)

(** Modelled from the spec: the class [DiscreteFlowField] is missing.
    Section 3: a position field carries its origin time and its current
    time; [main] configures the step ([SetDelta]) and the direction
    ([SetDirection]), and reads the initial and the current position, the
    time of the initial position and the current time. *)
Record DiscreteFlowField (Position : Type) : Type := {
  InitialPosition : Position;
  InitialPosition_time : double;  (* [InitialPosition().GetTime()] *)
  CurrentPosition : Position;
  time : double;                  (* [current_time_] *)
  delta : double;                 (* [SetDelta] *)
  flow_direction : Direction      (* [SetDirection] *)
}.
Arguments InitialPosition {Position} _.
Arguments InitialPosition_time {Position} _.
Arguments CurrentPosition {Position} _.
Arguments time {Position} _.
Arguments delta {Position} _.
Arguments flow_direction {Position} _.

(** The numerical kernels of the missing library, left open. *)
Class Kernels : Type := {
  (** [Tensor<Vector<double,2>,2>]: an [nx] by [ny] array of points. *)
  Tensor : Type;
  (** [Position<double,2>]: the points, the domain rectangle and the
      out-of-bounds flags. *)
  Position : Type;
  (** What [FTLE::WriteToFile] stores. *)
  FTLEField : Type;
  (** [Position<double,2>(nx, ny)] *)
  Position_new : double -> double -> Position;
  (** The uniform grid [U] of [nx] by [ny] points over the rectangle. *)
  uniform_grid : forall (nx ny x_min x_max y_min y_max : double), Position;
  (** [Position::GetAll()] *)
  GetAll : Position -> Tensor;
  (** [Position::SetAll(tensor)] *)
  SetAll_tensor : Tensor -> Position -> Position;
  (** [Position::UpdateOutOfBoundTensor()] *)
  UpdateOutOfBoundTensor : Position -> Position;
  (** One output step of Runge-Kutta advection through the velocity
      snapshots, from the given time, in the given direction. *)
  advect : Settings -> Z -> Direction -> double -> Position -> Position;
  (** [Velocity(nx, ny, at_points).InterpolateFrom(Velocity(nx, ny, grid)
      holding values).GetAll()] *)
  InterpolateFrom :
    forall (grid : Position) (values : Tensor) (at_points : Position), Tensor;
  (** [FTLE<double,2>(DiFlFi).Calculate()] *)
  Calculate : DiscreteFlowField Position -> FTLEField
}.

Section Driver.

Context `{K : Kernels}.

Local Abbreviation DiscreteFlowField := (DiscreteFlowField Position).

Definition set_InitialPosition (P : Position) (D : DiscreteFlowField) :=
  {| InitialPosition := P; InitialPosition_time := InitialPosition_time D;
     CurrentPosition := CurrentPosition D; time := time D;
     delta := delta D; flow_direction := flow_direction D |}.

Definition set_CurrentPosition (P : Position) (D : DiscreteFlowField) :=
  {| InitialPosition := InitialPosition D;
     InitialPosition_time := InitialPosition_time D;
     CurrentPosition := P; time := time D;
     delta := delta D; flow_direction := flow_direction D |}.

Definition SetDelta (d : double) (D : DiscreteFlowField) :=
  {| InitialPosition := InitialPosition D;
     InitialPosition_time := InitialPosition_time D;
     CurrentPosition := CurrentPosition D; time := time D;
     delta := d; flow_direction := flow_direction D |}.

Definition SetDirection (d : Direction) (D : DiscreteFlowField) :=
  {| InitialPosition := InitialPosition D;
     InitialPosition_time := InitialPosition_time D;
     CurrentPosition := CurrentPosition D; time := time D;
     delta := delta D; flow_direction := d |}.

(** [DiscreteFlowField<double,2> DiFlFi(nx, ny, data_nx, data_ny)] *)
Definition DiscreteFlowField_new (nx ny : double) : DiscreteFlowField :=
  {| InitialPosition := Position_new nx ny;
     InitialPosition_time := Double.zero;
     CurrentPosition := Position_new nx ny;
     time := Double.zero;
     delta := Double.zero;
     flow_direction := Forward |}.

Definition GetTime (D : DiscreteFlowField) : double := time D.

(** Modelled from the spec: [FlowField::SetInitialTime] is missing.
    Section 4.4, step 1: "Initialize P <- U with P.t <- t_i,
    P.t0 <- t_i"; lines 124 and 148 of [main] print [GetTime()] right after
    the call as the starting time. *)
Definition SetInitialTime (t : double) (D : DiscreteFlowField) :=
  {| InitialPosition := InitialPosition D;
     InitialPosition_time := t;
     CurrentPosition := CurrentPosition D;
     time := t;
     delta := delta D; flow_direction := flow_direction D |}.

(** The step of a flow field with its sign: [delta] forward, [- delta]
    backward. *)
Definition signed_delta (D : DiscreteFlowField) : double :=
  match flow_direction D with
  | Forward => delta D
  | Backward => Double.opp (delta D)
  end.

(** Modelled from the spec: [FlowField::UpdateTime] is missing.
    Section 4.4, step 2d: "Advance P.t <- P.t + Delta t", backward runs
    reversing the sign. *)
Definition UpdateTime (D : DiscreteFlowField) :=
  {| InitialPosition := InitialPosition D;
     InitialPosition_time := InitialPosition_time D;
     CurrentPosition := CurrentPosition D;
     time := Double.add (time D) (signed_delta D);
     delta := delta D; flow_direction := flow_direction D |}.

(** Modelled from the spec: [FlowField::CopyInitialPositionToCurrentPosition]
    is missing. Section 4.6: the current field restarts from the initial
    one. *)
Definition CopyInitialPositionToCurrentPosition (D : DiscreteFlowField) :=
  set_CurrentPosition (InitialPosition D) D.

(** Modelled from the spec: [Position::SetAll(x_min, x_max, y_min, y_max)]
    is missing. Section 4.6: "P <- U", a bulk reset to the uniform grid;
    nothing of the previous contents survives. *)
Definition SetAll_range (S : Settings) (P : Position) : Position :=
  uniform_grid (nx S) (ny S) (x_min S) (x_max S) (y_min S) (y_max S).

(** Modelled from the spec: [DiscreteFlowField::Run] is missing.
    Section 4.2: the current field is advected by one output step
    ([main] sets the step count to 1) and "P.t <- P.t + Delta t_step". *)
Definition Run (S : Settings) (precision : Z) (D : DiscreteFlowField) :=
  UpdateTime
    (set_CurrentPosition
       (advect S precision (flow_direction D) (time D) (CurrentPosition D))
       D).

(** *** Files and the trace of a run *)

Inductive file_content : Type :=
| StepMapFile (T : Tensor)
| FTLEFile (F : FTLEField)
| OtherFile.

Inductive Event : Type :=
| Stderr (line : string)
| Stdout (m : Message)
| WriteToMemoryMappedFile (path : string) (T : Tensor)
| ReadFromMemoryMappedFile (path : string)
| WriteToFile (path : string) (F : FTLEField).

(** A computation that prints and touches files, and may be cut short. *)
Definition Trace (A : Type) : Type := list Event * (Failure + A).

Definition ret {A : Type} (a : A) : Trace A := ([], inr a).

Definition bind {A B : Type} (c : Trace A) (k : A -> Trace B) : Trace B :=
  match c with
  | (es, inl f) => (es, inl f)
  | (es, inr a) => let '(es', r) := k a in (es ++ es', r)
  end.

Definition emit (e : Event) : Trace unit := ([e], inr tt).

Definition fail {A : Type} (f : Failure) : Trace A := ([], inl f).

Local Notation "x <- c ;; k" := (bind c (fun x => k))
  (at level 100, c at next level, right associativity).
Local Notation "c ;;; k" := (bind c (fun _ => k))
  (at level 100, right associativity).

(** [for (int i = first; ...; i++) body], run for [count] iterations. *)
Fixpoint for_loop {St : Type} (body : Z -> St -> Trace St)
    (i : Z) (count : nat) (st : St) : Trace St :=
  match count with
  | O => ret st
  | S count' => st' <- body i st ;; for_loop body (i + 1) count' st'
  end.

Definition write_step_map (path : string) (T : Tensor)
    (fs : gmap string file_content) : Trace (gmap string file_content) :=
  emit (WriteToMemoryMappedFile path T) ;;;
  ret (<[path := StepMapFile T]> fs).

(** Modelled from the spec: [ReadFromMemoryMappedFile] is missing.
    Section 7: "IOError - cannot open / read / write / mmap a required
    file. Fatal." *)
Definition read_step_map (path : string) (fs : gmap string file_content)
  : Trace Tensor :=
  emit (ReadFromMemoryMappedFile path) ;;;
  match fs !! path with
  | Some (StepMapFile T) => ret T
  | _ => fail (io_error path)
  end.

Definition write_ftle (path : string) (F : FTLEField)
    (fs : gmap string file_content) : Trace (gmap string file_content) :=
  emit (WriteToFile path F) ;;;
  ret (<[path := FTLEFile F]> fs).

(** *** File names *)

Definition CreateFileName (path file_prefix sign_prefix : string)
    (precision : Z) (D : DiscreteFlowField) : string :=
  path_join path
    (file_prefix +:+ sign_prefix +:+ fixed precision (GetTime D) +:+ ".bin").

Definition CreateFTLEFileName (path file_prefix sign_prefix : string)
    (precision : Z) (D : DiscreteFlowField) : string :=
  path_join path
    match flow_direction D with
    | Forward =>
        file_prefix +:+ sign_prefix +:+
        fixed precision (InitialPosition_time D) +:+ "-" +:+
        fixed precision (GetTime D) +:+ ".txt"
    | Backward =>
        file_prefix +:+ sign_prefix +:+
        fixed precision (GetTime D) +:+ "-" +:+
        fixed precision (InitialPosition_time D) +:+ ".txt"
    end.

(** The step-flow-map file of time [t], and the FTLE file of a composition
    from [t_origin] that reached [t_reached], as [main] names them. *)
Definition step_map_name (S : Settings) (precision : Z)
    (sign_prefix : string) (t : double) : string :=
  path_join (path_join "fast_computation" "step_flow_maps")
    (file_prefix S +:+ sign_prefix +:+ fixed precision t +:+ ".bin").

Definition ftle_name (S : Settings) (precision : Z) (sign_prefix : string)
    (direction : Direction) (t_origin t_reached : double) : string :=
  path_join (path_join (path_join "fast_computation" "results") "ftle")
    (file_prefix S +:+ sign_prefix +:+
     fixed precision
       (match direction with Forward => t_origin | Backward => t_reached end)
     +:+ "-" +:+
     fixed precision
       (match direction with Forward => t_reached | Backward => t_origin end)
     +:+ ".txt").

Definition CalculateInterpolatedPosition (UniformGrid : Position)
    (step_flow_maps_path file_prefix sign_prefix : string) (precision : Z)
    (D : DiscreteFlowField) (fs : gmap string file_content) : Trace Tensor :=
  let s_flow_maps :=
    CreateFileName step_flow_maps_path file_prefix sign_prefix precision D in
  StepPosition <- read_step_map s_flow_maps fs ;;
  ret (InterpolateFrom UniformGrid StepPosition (CurrentPosition D)).

(** *** [main] *)

(** [PrintSettings] prints the fourteen members it knows, one per line. *)
Definition PrintSettings (j : json) : Trace unit :=
  emit (Stdout (msg_settings (map (json_at j) recognized_keys))).

Definition proj_dir : string := "fast_computation".
Definition json_file : string := "sim_params.json".
Definition positive_prefix : string := "positive_".
Definition negative_prefix : string := "negative_".
Definition data_path : string := path_join proj_dir "data".
Definition step_flow_maps_path : string :=
  path_join proj_dir "step_flow_maps".
Definition results_ftle_path : string :=
  path_join (path_join proj_dir "results") "ftle".

(** The state the two loops carry: the flow field and the file system. *)
Definition State : Type := DiscreteFlowField * gmap string file_content.

(** Body of the first loop (lines 126-135). *)
Definition step_flow_map_body (S : Settings) (precision : Z)
    (signed_calc_delta_t : double) (sign_prefix : string)
    (i : Z) (st : State) : Trace State :=
  let '(D, fs) := st in
  emit (Stdout (msg_calculate_step_flow_map (i + 1) (steps S) (GetTime D)
                  (Double.add (GetTime D) signed_calc_delta_t))) ;;;
  let D := Run S precision D in
  let s_flow_maps :=
    CreateFileName step_flow_maps_path (file_prefix S) sign_prefix
      precision D in
  fs <- write_step_map s_flow_maps (GetAll (CurrentPosition D)) fs ;;
  let D := set_CurrentPosition (SetAll_range S (CurrentPosition D)) D in
  emit (Stdout msg_blank) ;;;
  ret (D, fs).

(** Body of the inner loop of the second phase (lines 151-156). *)
Definition interpolation_body (S : Settings) (precision : Z)
    (sign_prefix : string) (UniformGrid : Position)
    (ii : Z) (st : State) : Trace State :=
  let '(D, fs) := st in
  new_position <-
    CalculateInterpolatedPosition UniformGrid step_flow_maps_path
      (file_prefix S) sign_prefix precision D fs ;;
  let D :=
    set_CurrentPosition (SetAll_tensor new_position (CurrentPosition D)) D in
  let D :=
    set_CurrentPosition (UpdateOutOfBoundTensor (CurrentPosition D)) D in
  let D := UpdateTime D in
  ret (D, fs).

(** The origin time of composition [i] (line 147):
    [t_final - signed_calc_delta_t * (i+1)]. *)
Definition origin_time (t_final signed_calc_delta_t : double) (i : Z)
  : double :=
  Double.sub t_final (Double.mul signed_calc_delta_t (Double.of_int (i + 1))).

(** Body of the second loop (lines 145-164). *)
Definition fast_calculation_body (S : Settings) (precision : Z)
    (signed_calc_delta_t : double) (sign_prefix : string)
    (t_final : double) (UniformGrid : Position)
    (i : Z) (st : State) : Trace State :=
  let '(D, fs) := st in
  let D := set_InitialPosition (SetAll_range S (InitialPosition D)) D in
  let D := SetInitialTime (origin_time t_final signed_calc_delta_t i) D in
  emit (Stdout (msg_fast_calculation (i + 1) (steps S) (GetTime D)
                  t_final)) ;;;
  let D := CopyInitialPositionToCurrentPosition D in
  st' <- for_loop (interpolation_body S precision sign_prefix UniformGrid)
           0 (Z.to_nat (i + 1)) (D, fs) ;;
  let '(D, fs) := st' in
  emit (Stdout (msg_calculate_ftle (InitialPosition_time D))) ;;;
  let ftle := Calculate D in
  let s_ftle :=
    CreateFTLEFileName results_ftle_path (file_prefix S) sign_prefix
      precision D in
  fs <- write_ftle s_ftle ftle fs ;;
  emit (Stdout msg_timestep_finished) ;;;
  ret (D, fs).

(** First phase, lines 117-137: the step flow maps. *)
Definition step_flow_maps_phase (S : Settings) (precision : Z)
    (t_initial signed_calc_delta_t : double) (sign_prefix : string)
    (st : State) : Trace State :=
  let '(D, fs) := st in
  let D := SetInitialTime t_initial D in
  let D := set_InitialPosition (SetAll_range S (InitialPosition D)) D in
  let s_flow_maps :=
    CreateFileName step_flow_maps_path (file_prefix S) sign_prefix
      precision D in
  fs <- write_step_map s_flow_maps (GetAll (InitialPosition D)) fs ;;
  let D := CopyInitialPositionToCurrentPosition D in
  emit (Stdout (msg_start_step_flow_maps t_initial)) ;;;
  st' <- for_loop
           (step_flow_map_body S precision signed_calc_delta_t sign_prefix)
           0 (Z.to_nat (steps S)) (D, fs) ;;
  emit (Stdout (msg_initial_loop_ended (steps S))) ;;;
  ret st'.

(** Second phase, lines 139-167: composition and FTLE. *)
Definition fast_calculation_phase (S : Settings) (precision : Z)
    (t_final signed_calc_delta_t : double) (sign_prefix : string)
    (st : State) : Trace State :=
  let UniformGrid := SetAll_range S (Position_new (nx S) (ny S)) in
  st' <- for_loop
           (fast_calculation_body S precision signed_calc_delta_t
              sign_prefix t_final UniformGrid)
           0 (Z.to_nat (steps S)) st ;;
  emit (Stdout msg_fast_calculation_ended) ;;;
  ret st'.

(** Lines 114-173: both phases, then [return 0]. *)
Definition phases (S : Settings) (precision : Z)
    (t_initial t_final signed_calc_delta_t : double) (sign_prefix : string)
    (st : State) : Trace (Z * gmap string file_content) :=
  st <- step_flow_maps_phase S precision t_initial signed_calc_delta_t
          sign_prefix st ;;
  st <- fast_calculation_phase S precision t_final signed_calc_delta_t
          sign_prefix st ;;
  emit (Stdout (msg_calculation_times (steps S))) ;;;
  ret (0, snd st).

(** Line 68: [(t_max - t_min) / steps]. *)
Definition calc_delta_t (S : Settings) : double :=
  Double.div (Double.sub (t_max S) (t_min S)) (Double.of_int (steps S)).

(** [main]: the events of the run, then either the exit code with the
    files left behind, or the failure that ended the process. The setters
    that configure the snapshot reader ([DataPosition().SetAll],
    [SetVelocityFileNamePrefix], [SetDataTimeRange], [SetDataDelta],
    [SetPrecision]) act through [advect], which receives the settings and
    the precision; [SetStep(1)] is the single step of [Run]; the clocks are
    left out. *)
Definition main (fuel : nat) (file : config_file)
    (fs : gmap string file_content) : Trace (Z * gmap string file_content) :=
  emit (Stdout msg_number_of_threads) ;;;
  match file with
  | Unopenable =>
      emit (Stderr "Error: unable to open file 'sim_params.json'") ;;;
      ret (1, fs)
  | Malformed => fail parse_error
  | NotAnObject => fail not_an_object
  | Document j =>
      match read_settings j with
      | inl f => fail f
      | inr cfg =>
          match GetPrecision fuel (data_delta_t cfg) with
          | Undefined => fail precision_undefined
          | Unfinished => fail precision_unfinished
          | Value precision =>
              PrintSettings j ;;;
              let D := DiscreteFlowField_new (nx cfg) (ny cfg) in
              let D := SetDelta (calc_delta_t cfg) D in
              if bool_decide (direction cfg = "forward") then
                let D := SetDirection Forward D in
                emit (Stdout msg_forward_begins) ;;;
                phases cfg precision (t_min cfg) (t_max cfg) (calc_delta_t cfg)
                  positive_prefix (D, fs)
              else if bool_decide (direction cfg = "backward") then
                let D := SetDirection Backward D in
                emit (Stdout msg_backward_begins) ;;;
                phases cfg precision (t_max cfg) (t_min cfg)
                  (Double.opp (calc_delta_t cfg)) negative_prefix (D, fs)
              else
                emit (Stdout msg_direction_must_be_set) ;;;
                ret (1, fs)
          end
      end
  end.

(** *** Notions used to state the properties *)

(** The flow field after one turn of the inner loop that read [T]. *)
Definition interpolated (U : Position) (T : Tensor) (D : DiscreteFlowField)
  : DiscreteFlowField :=
  UpdateTime
    (set_CurrentPosition
       (UpdateOutOfBoundTensor
          (SetAll_tensor (InterpolateFrom U T (CurrentPosition D))
             (CurrentPosition D)))
       D).

(** The positions obtained from [P] by interpolating the step flow maps
    [Ts], one after the other, on the grid [U]. *)
Definition chain (U : Position) (Ts : list Tensor) (P : Position)
  : Position :=
  fold_left
    (fun P T =>
       UpdateOutOfBoundTensor (SetAll_tensor (InterpolateFrom U T P) P))
    Ts P.

(** The files of [n] successive times from [t] hold the step flow maps
    [Ts]. *)
Definition holds_step_maps (S : Settings) (precision : Z)
    (sign_prefix : string) (fs : gmap string file_content)
    (t signed_delta : double) (Ts : list Tensor) : Prop :=
  forall k T, Ts !! k = Some T ->
    fs !! step_map_name S precision sign_prefix (load_time t signed_delta k)
    = Some (StepMapFile T).

(** The state in which composition [i] leaves the flow field. *)
Definition composed (S : Settings) (t_final signed_calc_delta_t : double)
    (i : Z) (P' : Position) (D : DiscreteFlowField) : DiscreteFlowField :=
  {| InitialPosition := SetAll_range S (InitialPosition D);
     InitialPosition_time := origin_time t_final signed_calc_delta_t i;
     CurrentPosition := P';
     time := load_time (origin_time t_final signed_calc_delta_t i)
               signed_calc_delta_t (Z.to_nat (i + 1));
     delta := delta D;
     flow_direction := flow_direction D |}.

(** The program past the point where the settings are read and the
    precision is known. *)
Definition main_from_settings (j : json) (S : Settings) (precision : Z)
    (fs : gmap string file_content) : Trace (Z * gmap string file_content) :=
  bind (PrintSettings j) (fun _ =>
    if bool_decide (direction S = "forward") then
      bind (emit (Stdout msg_forward_begins)) (fun _ =>
        phases S precision (t_min S) (t_max S) (calc_delta_t S)
          positive_prefix
          (SetDirection Forward
             (SetDelta (calc_delta_t S)
                (DiscreteFlowField_new (nx S) (ny S))), fs))
    else if bool_decide (direction S = "backward") then
      bind (emit (Stdout msg_backward_begins)) (fun _ =>
        phases S precision (t_max S) (t_min S)
          (Double.opp (calc_delta_t S)) negative_prefix
          (SetDirection Backward
             (SetDelta (calc_delta_t S)
                (DiscreteFlowField_new (nx S) (ny S))), fs))
    else
      bind (emit (Stdout msg_direction_must_be_set)) (fun _ =>
        ret (1, fs))).

(** The uniform grid of the run. *)
Definition uniform (S : Settings) : Position :=
  uniform_grid (nx S) (ny S) (x_min S) (x_max S) (y_min S) (y_max S).

(** Two file systems hold the same step flow maps of the run. *)
Definition same_step_maps (S : Settings) (precision : Z)
    (sign_prefix : string) (fs fs' : gmap string file_content) : Prop :=
  forall t, fs !! step_map_name S precision sign_prefix t
            = fs' !! step_map_name S precision sign_prefix t.


End Driver.

(** ** The free kernels

    An instance of the interface in which every kernel returns the
    expression of its own call (the settings, constant during a run, are
    dropped): a run with it shows which kernels the driver applies to what,
    and in which order. *)

Inductive expr : Type :=
| e_Position_new
| e_uniform_grid
| e_GetAll (p : expr)
| e_SetAll (T p : expr)
| e_UpdateOutOfBoundTensor (p : expr)
| e_advect (direction : Direction) (t : double) (p : expr)
| e_InterpolateFrom (grid values at_points : expr).

#[export] Instance free_kernels : Kernels := {|
  Tensor := expr;
  Position := expr;
  FTLEField := DiscreteFlowField expr;
  Position_new := fun _ _ => e_Position_new;
  uniform_grid := fun _ _ _ _ _ _ => e_uniform_grid;
  GetAll := e_GetAll;
  SetAll_tensor := e_SetAll;
  UpdateOutOfBoundTensor := e_UpdateOutOfBoundTensor;
  advect := fun _ _ => e_advect;
  InterpolateFrom := e_InterpolateFrom;
  Calculate := fun D => D
|}.

(** ** Sample configurations

    The document of the README, with the window, the cadence, the number of
    steps and the direction left open. *)
Definition sample_document (t_max : Z) (data_delta_t : double) (steps : Z)
    (direction : string) : json :=
  list_to_map
    [ ("x_min", json_float (Double.of_int 0));
      ("x_max", json_float (Double.of_int 2));
      ("y_min", json_float (Double.of_int 0));
      ("y_max", json_float (Double.of_int 1));
      ("nx", json_integer 500); ("ny", json_integer 250);
      ("data_nx", json_integer 500); ("data_ny", json_integer 250);
      ("t_min", json_integer 0); ("t_max", json_integer t_max);
      ("data_delta_t", json_float data_delta_t);
      ("steps", json_integer steps);
      ("file_prefix", json_string "double_gyre_");
      ("direction", json_string direction) ]%string.

(** The settings [main] reads from that document. *)
Definition sample_settings (t_max : Z) (data_delta_t : double) (steps : Z)
    (direction : string) : Settings :=
  {| x_min := Double.of_int 0; x_max := Double.of_int 2;
     y_min := Double.of_int 0; y_max := Double.of_int 1;
     nx := Double.of_int 500; ny := Double.of_int 250;
     data_nx := Double.of_int 500; data_ny := Double.of_int 250;
     t_min := Double.of_int 0; t_max := Double.of_int t_max;
     data_delta_t := data_delta_t;
     steps := wrap_int steps;
     file_prefix := "double_gyre_";
     direction := direction |}.

(** A forward flow field as [main] sets it up for two steps over [0, 2],
    and a directory holding the step flow maps of times 0 and 1. *)
Definition sample_flow_field : DiscreteFlowField expr :=
  {| InitialPosition := e_Position_new;
     InitialPosition_time := Double.zero;
     CurrentPosition := e_Position_new;
     time := Double.zero;
     delta := Double.of_int 1;
     flow_direction := Forward |}.

Definition sample_files : gmap string (@file_content free_kernels) :=
  <["fast_computation/step_flow_maps/double_gyre_positive_0.0.bin"
    := StepMapFile (e_GetAll e_uniform_grid)]>
    (<["fast_computation/step_flow_maps/double_gyre_positive_1.0.bin"
       := StepMapFile
            (e_GetAll (e_advect Forward (Double.of_int 0) e_uniform_grid))]>
       ∅).

(** The step flow maps those two files hold. *)
Definition sample_step_maps : list expr :=
  [ e_GetAll e_uniform_grid;
    e_GetAll (e_advect Forward (Double.of_int 0) e_uniform_grid) ].

(** ** Reading a trace *)

Section Reading.

Context `{K : Kernels}.

Definition read_path (e : Event) : option string :=
  match e with
  | ReadFromMemoryMappedFile path => Some path
  | _ => None
  end.

Definition step_map_written (e : Event) : option (string * Tensor) :=
  match e with
  | WriteToMemoryMappedFile path T => Some (path, T)
  | _ => None
  end.

Definition ftle_written (e : Event) : option (string * FTLEField) :=
  match e with
  | WriteToFile path F => Some (path, F)
  | _ => None
  end.

Definition error_line (e : Event) : option string :=
  match e with
  | Stderr line => Some line
  | _ => None
  end.

(** The step-flow-map files read, in order. *)
Definition reads (es : list Event) : list string := omap read_path es.
(** The step-flow-map files written, in order. *)
Definition step_maps_written (es : list Event) : list (string * Tensor) :=
  omap step_map_written es.
(** The FTLE files written, in order. *)
Definition ftle_files_written (es : list Event)
  : list (string * FTLEField) :=
  omap ftle_written es.
(** The lines sent to the error stream. *)
Definition error_lines (es : list Event) : list string :=
  omap error_line es.

(** File accesses, in order, without what the program prints. *)
Definition is_file_access (e : Event) : bool :=
  match e with
  | Stderr _ | Stdout _ => false
  | _ => true
  end.

Definition file_accesses (es : list Event) : list Event :=
  List.filter is_file_access es.

End Reading.

(** The value [main] returned, when it returned. *)
Definition exit_code {A : Type} (r : Failure + (Z * A)) : option Z :=
  match r with
  | inr (code, _) => Some code
  | inl _ => None
  end.

(** The exception that ended the run, when one did. *)
Definition thrown {A : Type} (r : Failure + A) : option Failure :=
  match r with
  | inl f => Some f
  | inr _ => None
  end.


(** The times at which composition [i] loads its step flow maps. *)
Definition composition_load_times (t_final signed_calc_delta_t : double)
    (i : Z) : list double :=
  map (load_time (origin_time t_final signed_calc_delta_t i)
         signed_calc_delta_t)
    (seq 0 (Z.to_nat (i + 1))).

(** Each time is strictly before the next one. *)
Fixpoint increasing (ts : list double) : bool :=
  match ts with
  | t :: (t' :: _) as rest => Double.ltb t t' && increasing rest
  | _ => true
  end.


(** The last character of a text. *)
Fixpoint last_char (s : string) : option ascii :=
  match s with
  | EmptyString => None
  | String c EmptyString => Some c
  | String _ rest => last_char rest
  end.

(** ** Whole runs

    Notions for the properties of a whole run of [main]. *)

Section Runs.

Context `{K : Kernels}.

Local Abbreviation DiscreteFlowField := (DiscreteFlowField Position).

(** [CreateDataFileName] (lines 194-199): the name of the velocity snapshot
    of the current time of the flow field. [main] does not call it. *)
Definition CreateDataFileName (path file_prefix : string) (precision : Z)
    (D : DiscreteFlowField) : string :=
  path_join path (file_prefix +:+ fixed precision (GetTime D) +:+ ".txt").

(** The branch of lines 92-112 that the text of [direction] selects. *)
Definition chosen_direction (S : Settings) : option Direction :=
  if bool_decide (direction S = "forward") then Some Forward
  else if bool_decide (direction S = "backward") then Some Backward
  else None.

(** What that branch assigns to [t_initial], [t_final],
    [signed_calc_delta_t] and [sign_prefix], and the flow field it leaves. *)
Definition initial_time (d : Direction) (S : Settings) : double :=
  match d with Forward => t_min S | Backward => t_max S end.

Definition final_time (d : Direction) (S : Settings) : double :=
  match d with Forward => t_max S | Backward => t_min S end.

Definition signed_step (d : Direction) (S : Settings) : double :=
  match d with
  | Forward => calc_delta_t S
  | Backward => Double.opp (calc_delta_t S)
  end.

Definition prefix_of (d : Direction) : string :=
  match d with Forward => positive_prefix | Backward => negative_prefix end.

Definition begins (d : Direction) : Message :=
  match d with Forward => msg_forward_begins | Backward => msg_backward_begins end.

Definition initial_field (d : Direction) (S : Settings) : DiscreteFlowField :=
  SetDirection d (SetDelta (calc_delta_t S)
                    (DiscreteFlowField_new (nx S) (ny S))).

(** The file an event touches. *)
Definition accessed_path (e : Event) : option string :=
  match e with
  | WriteToMemoryMappedFile path _ => Some path
  | ReadFromMemoryMappedFile path => Some path
  | WriteToFile path _ => Some path
  | _ => None
  end.

Definition accessed_paths (es : list Event) : list string :=
  omap accessed_path es.

(** The names of the step flow maps the first phase writes: the one of
    [t_initial], then one per step, the time advancing by addition. *)
Definition names_written (S : Settings) (precision : Z) (d : Direction)
  : list string :=
  map (fun k => step_map_name S precision (prefix_of d)
                  (load_time (initial_time d S) (signed_step d S) k))
    (seq 0 (Datatypes.S (Z.to_nat (steps S)))).

(** The names composition [i] asks for, in order. *)
Definition names_asked_by (S : Settings) (precision : Z) (d : Direction)
    (i : nat) : list string :=
  map (fun k => step_map_name S precision (prefix_of d)
                  (load_time
                     (origin_time (final_time d S) (signed_step d S)
                        (Z.of_nat i))
                     (signed_step d S) k))
    (seq 0 (Datatypes.S i)).

(** The name of the FTLE file composition [i] writes. *)
Definition ftle_name_of (S : Settings) (precision : Z) (d : Direction)
    (i : nat) : string :=
  ftle_name S precision (prefix_of d) d
    (origin_time (final_time d S) (signed_step d S) (Z.of_nat i))
    (load_time (origin_time (final_time d S) (signed_step d S) (Z.of_nat i))
       (signed_step d S) (Datatypes.S i)).

(** The files of a run that goes through, in the order they are touched. *)
Definition schedule (S : Settings) (precision : Z) (d : Direction)
  : list string :=
  names_written S precision d
  ++ flat_map (fun i => names_asked_by S precision d i
                        ++ [ftle_name_of S precision d i])
       (seq 0 (Z.to_nat (steps S))).

(** The step flow map the first phase writes at its turn [k]: the uniform
    grid first, then the uniform grid advected from the time reached. *)
Definition step_map_of (S : Settings) (precision : Z) (d : Direction)
    (k : nat) : Tensor :=
  match k with
  | O => GetAll (uniform S)
  | Datatypes.S k' =>
      GetAll (advect S precision d
                (load_time (initial_time d S) (signed_step d S) k')
                (uniform S))
  end.

(** The name under which it is written. *)
Definition step_map_name_of (S : Settings) (precision : Z) (d : Direction)
    (k : nat) : string :=
  step_map_name S precision (prefix_of d)
    (load_time (initial_time d S) (signed_step d S) k).

(** The files a run leaves behind when [main] returns. *)
Definition files_after (r : Failure + (Z * gmap string file_content))
  : gmap string file_content :=
  match r with
  | inr (_, fs) => fs
  | inl _ => ∅
  end.

(** Every name a composition asks for is one the first phase writes. *)
Definition asks_only_written (S : Settings) (precision : Z) (d : Direction)
  : bool :=
  let written := names_written S precision d in
  forallb
    (fun i => forallb (fun p => existsb (String.eqb p) written)
                (names_asked_by S precision d i))
    (seq 0 (Z.to_nat (steps S))).

(** The file [path] holds a step flow map. *)
Definition holds_a_step_map (fs : gmap string file_content) (path : string)
  : Prop :=
  exists T, fs !! path = Some (StepMapFile T).

(** The event touches no file, or a file the run names itself: a step
    flow map or an FTLE file of its own settings, precision and sign
    prefix. *)
Definition own_name (S : Settings) (precision : Z) (sign_prefix : string)
    (e : Event) : Prop :=
  match e with
  | WriteToMemoryMappedFile path _ | ReadFromMemoryMappedFile path =>
      exists t, path = step_map_name S precision sign_prefix t
  | WriteToFile path _ =>
      exists d t t', path = ftle_name S precision sign_prefix d t t'
  | _ => True
  end.

End Runs.

(** ** [create_discrete_data.cpp]: the generator of velocity snapshots

    The second program of the repository writes the velocity snapshots the
    first one integrates: one text file per time, from [t_min] on, every
    [data_delta_t], as long as [t_max] is not passed by more than
    [1e-12]. *)

Module CreateDiscreteData.

(** The ten settings the generator reads (lines 270-279). *)
Record Settings : Type := {
  x_min : double; x_max : double; y_min : double; y_max : double;
  data_nx : double; data_ny : double;
  t_min : double; t_max : double; data_delta_t : double;
  file_prefix : string
}.

Definition read_settings (j : json) : Failure + Settings :=
  and_then (get_double j "x_min") (fun x_min =>
  and_then (get_double j "x_max") (fun x_max =>
  and_then (get_double j "y_min") (fun y_min =>
  and_then (get_double j "y_max") (fun y_max =>
  and_then (get_double j "data_nx") (fun data_nx =>
  and_then (get_double j "data_ny") (fun data_ny =>
  and_then (get_double j "t_min") (fun t_min =>
  and_then (get_double j "t_max") (fun t_max =>
  and_then (get_double j "data_delta_t") (fun data_delta_t =>
  and_then (get_string j "file_prefix") (fun file_prefix =>
  inr {| x_min := x_min; x_max := x_max; y_min := y_min; y_max := y_max;
         data_nx := data_nx; data_ny := data_ny;
         t_min := t_min; t_max := t_max; data_delta_t := data_delta_t;
         file_prefix := file_prefix |})))))))))).

(** The keys the generator reads. *)
Definition recognized_keys : list string :=
  [ "x_min"; "x_max"; "y_min"; "y_max"; "data_nx"; "data_ny";
    "t_min"; "t_max"; "data_delta_t"; "file_prefix" ]%string.

(** The double-gyre model ([velocity_function.hpp]) is not among the
    sources: what [double_gyre_vel.SetAll()] computes on the data grid, for
    the time of the field, is left open. *)
Class Kernels : Type := {
  Velocity : Type;
  double_gyre : Settings -> double -> Velocity
}.

Section Generator.

Context `{K : Kernels}.

Inductive Event : Type :=
| Stderr (line : string)
| Stdout (line : string)
| WriteToFile (path : string) (V : Velocity).

(** How far a run of the model got: [main] returned, an exception ended
    the process, or the iteration budget was used up in a loop. *)
Inductive Outcome : Type :=
| Returned (code : Z)
| Threw (f : Failure)
| Running.

(** The literal [-1e-12]. *)
Definition minus_1e_12 : double := Double.opp (Double.ratio 1 (10 ^ 12)).

(** The loop condition [t_max - current_time >= -1e-12]. *)
Definition continues (t_max current_time : double) : bool :=
  SFleb minus_1e_12 (Double.sub t_max current_time).

(** The name of the snapshot of time [t] (lines 293-295). *)
Definition snapshot_name (S : Settings) (precision : Z) (t : double)
  : string :=
  path_join data_path (file_prefix S +:+ fixed precision t +:+ ".txt").

(** Modelled from the spec: the class [ContinuousVelocity] is missing.
    Section 3: a velocity snapshot is a pair of a time and a field on the
    data grid. The time is all that [main] reads back. *)
Record ContinuousVelocity : Type := { velocity_time : double }.

(** [ContinuousVelocity(data_nx, data_ny, pos)]; [main] sets the time
    before it reads it. *)
Definition ContinuousVelocity_new : ContinuousVelocity :=
  {| velocity_time := Double.zero |}.

(** Modelled from the spec: [UpdateTime] is missing. Section 3: it sets
    the time of the snapshot. *)
Definition UpdateTime (t : double) (v : ContinuousVelocity)
  : ContinuousVelocity :=
  {| velocity_time := t |}.

Definition GetTime (v : ContinuousVelocity) : double := velocity_time v.

(** The loop of lines 291-299; [fuel] bounds the number of times its
    condition is evaluated, and the boolean tells whether it exited. *)
Fixpoint snapshots (fuel : nat) (S : Settings) (precision : Z)
    (current_time : double) (double_gyre_vel : ContinuousVelocity)
  : list Event * bool :=
  match fuel with
  | O => ([], false)
  | Datatypes.S fuel' =>
      if continues (t_max S) current_time then
        let double_gyre_vel := UpdateTime current_time double_gyre_vel in
        let s := snapshot_name S precision (GetTime double_gyre_vel) in
        let '(es, exited) :=
          snapshots fuel' S precision
            (Double.add current_time (data_delta_t S)) double_gyre_vel in
        (WriteToFile s (double_gyre S (GetTime double_gyre_vel)) :: es,
         exited)
      else ([], true)
  end.

(** [main] (lines 254-303). [precision_fuel] bounds the loop of
    [GetPrecision], of which the file has its own copy (lines 305-312,
    the same text as in the first program), [fuel] the loop of [main]. *)
Definition main (precision_fuel fuel : nat) (file : config_file)
  : list Event * Outcome :=
  match file with
  | Unopenable =>
      ([Stderr "Error: unable to open file 'sim_params.json'"], Returned 1)
  | Malformed => ([], Threw parse_error)
  | NotAnObject => ([], Threw not_an_object)
  | Document j =>
      match read_settings j with
      | inl f => ([], Threw f)
      | inr cfg =>
          match GetPrecision precision_fuel (data_delta_t cfg) with
          | Undefined => ([], Threw precision_undefined)
          | Unfinished => ([], Running)
          | Value precision =>
              let '(es, exited) :=
                snapshots fuel cfg precision (t_min cfg)
                  ContinuousVelocity_new in
              if exited then
                (es ++ [Stdout ("Discrete " +:+ file_prefix cfg
                                +:+ " data written to files")],
                 Returned 0)
              else (es, Running)
          end
      end
  end.

(** The snapshots a trace writes, in order. *)
Definition snapshot_written (e : Event) : option (string * Velocity) :=
  match e with
  | WriteToFile path V => Some (path, V)
  | _ => None
  end.

Definition snapshots_written (es : list Event) : list (string * Velocity) :=
  omap snapshot_written es.

End Generator.

End CreateDiscreteData.

(** The settings of the first program that the generator reads as well. *)
Definition data_settings (S : Settings) : CreateDiscreteData.Settings :=
  {| CreateDiscreteData.x_min := x_min S;
     CreateDiscreteData.x_max := x_max S;
     CreateDiscreteData.y_min := y_min S;
     CreateDiscreteData.y_max := y_max S;
     CreateDiscreteData.data_nx := data_nx S;
     CreateDiscreteData.data_ny := data_ny S;
     CreateDiscreteData.t_min := t_min S;
     CreateDiscreteData.t_max := t_max S;
     CreateDiscreteData.data_delta_t := data_delta_t S;
     CreateDiscreteData.file_prefix := file_prefix S |}.

(** A directory in which an earlier run has left one step flow map. *)
Definition stale_files : gmap string (@file_content free_kernels) :=
  <["fast_computation/step_flow_maps/double_gyre_positive_6.29999999999999982.bin"
    := StepMapFile e_Position_new]> ∅.

(** Kernels that return the time they are asked for. *)
#[export] Instance snapshot_times : CreateDiscreteData.Kernels := {|
  CreateDiscreteData.Velocity := double;
  CreateDiscreteData.double_gyre := fun _ t => t
|}.

(** * [GetPrecision] returns

    Facts about the rounding of [SpecFloat], as far as the loop of
    [GetPrecision] needs them: multiplying by ten raises the order of
    magnitude of a double by three at least, and a double of magnitude 2^52
    or more is an integer. *)





























(** * Properties *)

Section Properties.

Context `{K : Kernels}.

Local Abbreviation DiscreteFlowField := (DiscreteFlowField Position).

(** ** The trace monad and the loops *)

Lemma bind_ret {A B : Type} (a : A) (k : A -> Trace B) :
  bind (ret a) k = k a.
Proof. unfold bind, ret. destruct (k a) as [es r]. reflexivity. Qed.

Lemma bind_value {A B : Type} (es : list Event) (a : A) (k : A -> Trace B) :
  bind (es, inr a) k = (es ++ fst (k a), snd (k a)).
Proof. unfold bind. destruct (k a) as [es' r]. reflexivity. Qed.

Lemma bind_failure {A B : Type} (es : list Event) (f : Failure)
    (k : A -> Trace B) :
  bind (es, inl f) k = (es, inl f).
Proof. reflexivity. Qed.

Ltac trace_steps :=
  repeat (rewrite bind_value; cbn beta iota delta [fst snd ret]).

Lemma for_loop_succ {St : Type} (body : Z -> St -> Trace St) (i : Z)
    (n : nat) (st : St) :
  for_loop body i (S n) st = bind (body i st) (for_loop body (i + 1) n).
Proof. reflexivity. Qed.

Lemma map_seq_succ {A : Type} (f : nat -> A) (n : nat) :
  forall start,
    map f (seq (Datatypes.S start) n)
    = map (fun k => f (Datatypes.S k)) (seq start n).
Proof.
  induction n as [|n IH]; intros start; simpl; [reflexivity|].
  f_equal. apply IH.
Qed.

Lemma load_time_succ (t sd : double) (k : nat) :
  load_time t sd (S k) = Double.add (load_time t sd k) sd.
Proof. reflexivity. Qed.

Lemma load_time_shift (t sd : double) (k : nat) :
  load_time (Double.add t sd) sd k = load_time t sd (S k).
Proof.
  unfold load_time. rewrite Nat.iter_succ_r. reflexivity.
Qed.

Lemma CreateFileName_step_map_name (S : Settings) (precision : Z)
    (sign_prefix : string) (D : DiscreteFlowField) :
  CreateFileName step_flow_maps_path (file_prefix S) sign_prefix precision D
  = step_map_name S precision sign_prefix (time D).
Proof. reflexivity. Qed.

Lemma CreateFTLEFileName_ftle_name (S : Settings) (precision : Z)
    (sign_prefix : string) (D : DiscreteFlowField) :
  CreateFTLEFileName results_ftle_path (file_prefix S) sign_prefix precision D
  = ftle_name S precision sign_prefix (flow_direction D)
      (InitialPosition_time D) (time D).
Proof.
  unfold CreateFTLEFileName, ftle_name, results_ftle_path, proj_dir, GetTime.
  destruct (flow_direction D); reflexivity.
Qed.

(** ** The inner loop of the second phase *)

Lemma interpolation_body_present (S : Settings) (precision : Z)
    (sign_prefix : string) (U : Position) (ii : Z) (D : DiscreteFlowField)
    (fs : gmap string file_content) (T : Tensor) :
  fs !! step_map_name S precision sign_prefix (time D)
    = Some (StepMapFile T) ->
  interpolation_body S precision sign_prefix U ii (D, fs)
  = ([ReadFromMemoryMappedFile
        (step_map_name S precision sign_prefix (time D))],
     inr (interpolated U T D, fs)).
Proof.
  intros HT.
  unfold interpolation_body, CalculateInterpolatedPosition, read_step_map.
  rewrite CreateFileName_step_map_name, HT. reflexivity.
Qed.

Lemma interpolation_body_absent (S : Settings) (precision : Z)
    (sign_prefix : string) (U : Position) (ii : Z) (D : DiscreteFlowField)
    (fs : gmap string file_content) :
  (forall T, fs !! step_map_name S precision sign_prefix (time D)
             <> Some (StepMapFile T)) ->
  interpolation_body S precision sign_prefix U ii (D, fs)
  = ([ReadFromMemoryMappedFile
        (step_map_name S precision sign_prefix (time D))],
     inl (io_error (step_map_name S precision sign_prefix (time D)))).
Proof.
  intros HT.
  unfold interpolation_body, CalculateInterpolatedPosition, read_step_map.
  rewrite CreateFileName_step_map_name.
  destruct (fs !! _) as [[T| |]|] eqn:E; try reflexivity.
  exfalso. exact (HT T eq_refl).
Qed.

(** When the files it asks for are there, the inner loop reads the step
    flow maps of successive times, starting at the current time of the flow
    field, and chains them from the current position; it leaves everything
    but the current position and the time as it was. *)
Lemma interpolation_loop_reads (S : Settings) (precision : Z)
    (sign_prefix : string) (U : Position) (Ts : list Tensor) :
  forall (ii : Z) (D : DiscreteFlowField) (fs : gmap string file_content),
    holds_step_maps S precision sign_prefix fs (time D) (signed_delta D) Ts ->
    for_loop (interpolation_body S precision sign_prefix U) ii (length Ts)
      (D, fs)
    = (map (fun k => ReadFromMemoryMappedFile
                       (step_map_name S precision sign_prefix
                          (load_time (time D) (signed_delta D) k)))
         (seq 0 (length Ts)),
       inr ({| InitialPosition := InitialPosition D;
               InitialPosition_time := InitialPosition_time D;
               CurrentPosition := chain U Ts (CurrentPosition D);
               time := load_time (time D) (signed_delta D) (length Ts);
               delta := delta D;
               flow_direction := flow_direction D |}, fs)).
Proof.
  induction Ts as [|T Ts IH]; intros ii D fs Hfiles.
  - destruct D; reflexivity.
  - pose proof (Hfiles 0%nat T eq_refl) as HT.
    change (load_time (time D) (signed_delta D) 0) with (time D) in HT.
    change (length (T :: Ts)) with (Datatypes.S (length Ts)).
    rewrite for_loop_succ, (interpolation_body_present _ _ _ _ _ _ _ T HT).
    rewrite bind_value.
    set (D1 := interpolated U T D).
    assert (Hsd : signed_delta D1 = signed_delta D) by reflexivity.
    assert (Ht : time D1 = Double.add (time D) (signed_delta D))
      by reflexivity.
    assert (HP : chain U Ts (CurrentPosition D1)
                 = chain U (T :: Ts) (CurrentPosition D)) by reflexivity.
    assert (Hfiles1 : holds_step_maps S precision sign_prefix fs (time D1)
                        (signed_delta D1) Ts).
    { intros k T' Hk. rewrite Hsd, Ht, load_time_shift.
      apply Hfiles. exact Hk. }
    rewrite (IH (ii + 1) D1 fs Hfiles1).
    rewrite HP, Hsd, Ht, load_time_shift. unfold fst, snd. f_equal.
    change (seq 0 (Datatypes.S (length Ts)))
      with (0%nat :: seq 1 (length Ts)).
    rewrite List.map_cons, map_seq_succ. simpl app. f_equal.
    apply List.map_ext. intros k. rewrite load_time_shift. reflexivity.
Qed.

(** ** One composition of the second phase *)

Lemma fast_calculation_body_completes (S : Settings) (precision : Z)
    (signed_calc_delta_t : double) (sign_prefix : string)
    (t_final : double) (U : Position) (i : Z) (D : DiscreteFlowField)
    (fs : gmap string file_content) (Ts : list Tensor) :
  signed_delta D = signed_calc_delta_t ->
  length Ts = Z.to_nat (i + 1) ->
  holds_step_maps S precision sign_prefix fs
    (origin_time t_final signed_calc_delta_t i) signed_calc_delta_t Ts ->
  let D' := composed S t_final signed_calc_delta_t i
              (chain U Ts (uniform S)) D in
  let name :=
    ftle_name S precision sign_prefix (flow_direction D)
      (origin_time t_final signed_calc_delta_t i) (time D') in
  fast_calculation_body S precision signed_calc_delta_t sign_prefix
    t_final U i (D, fs)
  = (Stdout (msg_fast_calculation (i + 1) (steps S)
               (origin_time t_final signed_calc_delta_t i) t_final)
     :: map (fun k => ReadFromMemoryMappedFile
                        (step_map_name S precision sign_prefix
                           (load_time
                              (origin_time t_final signed_calc_delta_t i)
                              signed_calc_delta_t k)))
          (seq 0 (Z.to_nat (i + 1)))
     ++ [Stdout (msg_calculate_ftle
                   (origin_time t_final signed_calc_delta_t i));
         WriteToFile name (Calculate D');
         Stdout msg_timestep_finished],
     inr (D', <[name := FTLEFile (Calculate D')]> fs)).
Proof.
  intros Hsd Hlen Hfiles.
  set (origin := origin_time t_final signed_calc_delta_t i) in *.
  set (D0 := CopyInitialPositionToCurrentPosition
               (SetInitialTime origin
                  (set_InitialPosition (SetAll_range S (InitialPosition D))
                     D))).
  assert (Hsd0 : signed_delta D0 = signed_calc_delta_t) by exact Hsd.
  assert (Ht0 : time D0 = origin) by reflexivity.
  assert (Hfiles0 : holds_step_maps S precision sign_prefix fs (time D0)
                      (signed_delta D0) Ts) by (rewrite Hsd0, Ht0; exact Hfiles).
  pose proof (interpolation_loop_reads S precision sign_prefix U Ts 0 D0 fs
                Hfiles0) as HP'.
  rewrite Hsd0, Ht0, Hlen in HP'.
  cbv zeta. unfold fast_calculation_body.
  fold origin. fold D0. rewrite HP'.
  unfold emit, write_ftle, emit. rewrite !bind_value.
  unfold fst, snd. rewrite CreateFTLEFileName_ftle_name. reflexivity.
Qed.

(** ** Reading traces *)

Lemma reads_app (es es' : list Event) : reads (es ++ es') = reads es ++ reads es'.
Proof. apply omap_app. Qed.

Lemma reads_of_reads (paths : list string) :
  reads (map ReadFromMemoryMappedFile paths) = paths.
Proof.
  induction paths as [|p paths IH]; [reflexivity|].
  simpl. unfold reads in *. simpl. rewrite IH. reflexivity.
Qed.

Lemma file_accesses_app (es es' : list Event) :
  file_accesses (es ++ es') = file_accesses es ++ file_accesses es'.
Proof. apply List.filter_app. Qed.

Lemma file_accesses_of_reads (paths : list string) :
  file_accesses (map ReadFromMemoryMappedFile paths)
  = map ReadFromMemoryMappedFile paths.
Proof.
  induction paths as [|p paths IH]; [reflexivity|].
  simpl. unfold file_accesses in *. simpl. rewrite IH. reflexivity.
Qed.

Lemma step_maps_written_app (es es' : list Event) :
  step_maps_written (es ++ es')
  = step_maps_written es ++ step_maps_written es'.
Proof. apply omap_app. Qed.

Lemma ftle_files_written_app (es es' : list Event) :
  ftle_files_written (es ++ es')
  = ftle_files_written es ++ ftle_files_written es'.
Proof. apply omap_app. Qed.

Lemma ftle_files_written_of_reads (paths : list string) :
  ftle_files_written (map ReadFromMemoryMappedFile paths) = [].
Proof.
  induction paths as [|p paths IH]; [reflexivity|].
  simpl. unfold ftle_files_written in *. simpl. exact IH.
Qed.

(** C1, as amended. In composition [i] of the second phase the origin
    time of the flow field is set to
    [t_final - signed_calc_delta_t * (i+1)]; then, provided the files asked
    for exist, exactly [i+1] step-flow-map files are read, the file of the
    origin time first and each next one a signed step later (later in a
    forward run, earlier in a backward run), every one being the file
    named after the current time of the position field; the maps read are
    chained in that order from the uniform grid; one FTLE field is written
    after the last read, and no other file is touched. *)
Theorem C1_composition_reads_then_writes (S : Settings) (precision : Z)
    (signed_calc_delta_t : double) (sign_prefix : string)
    (t_final : double) (U : Position) (i : Z) (D : DiscreteFlowField)
    (fs : gmap string file_content) (Ts : list Tensor) :
  0 <= i ->
  signed_delta D = signed_calc_delta_t ->
  length Ts = Z.to_nat (i + 1) ->
  holds_step_maps S precision sign_prefix fs
    (origin_time t_final signed_calc_delta_t i) signed_calc_delta_t Ts ->
  exists es D' fs',
    fast_calculation_body S precision signed_calc_delta_t sign_prefix
      t_final U i (D, fs) = (es, inr (D', fs'))
    /\ InitialPosition_time D'
       = Double.sub t_final
           (Double.mul signed_calc_delta_t (Double.of_int (i + 1)))
    /\ reads es
       = map (fun k => step_map_name S precision sign_prefix
                         (load_time (InitialPosition_time D')
                            signed_calc_delta_t k))
           (seq 0 (Z.to_nat (i + 1)))
    /\ Z.of_nat (length (reads es)) = i + 1
    /\ (forall k, load_time (InitialPosition_time D') signed_calc_delta_t
                    (Datatypes.S k)
                  = Double.add
                      (load_time (InitialPosition_time D')
                         signed_calc_delta_t k)
                      signed_calc_delta_t)
    /\ CurrentPosition D' = chain U Ts (uniform S)
    /\ exists name,
         file_accesses es
         = map ReadFromMemoryMappedFile (reads es)
           ++ [WriteToFile name (Calculate D')].
Proof.
  intros Hi Hsd Hlen Hfiles.
  pose proof (fast_calculation_body_completes S precision signed_calc_delta_t
                sign_prefix t_final U i D fs Ts Hsd Hlen Hfiles) as HP'.
  cbv zeta in HP'.
  set (D' := composed S t_final signed_calc_delta_t i
               (chain U Ts (uniform S)) D) in *.
  eexists _, D', _. split; [exact HP'|].
  set (origin := origin_time t_final signed_calc_delta_t i).
  assert (Hreads :
    reads (Stdout (msg_fast_calculation (i + 1) (steps S) origin t_final)
           :: map (fun k => ReadFromMemoryMappedFile
                              (step_map_name S precision sign_prefix
                                 (load_time origin signed_calc_delta_t k)))
                (seq 0 (Z.to_nat (i + 1)))
           ++ [Stdout (msg_calculate_ftle origin);
               WriteToFile
                 (ftle_name S precision sign_prefix (flow_direction D) origin
                    (time D'))
                 (Calculate D');
               Stdout msg_timestep_finished])
    = map (fun k => step_map_name S precision sign_prefix
                      (load_time origin signed_calc_delta_t k))
        (seq 0 (Z.to_nat (i + 1)))).
  { change (reads (?e :: ?l)) with (reads l).
    rewrite reads_app, <- (List.map_map _ ReadFromMemoryMappedFile).
    rewrite reads_of_reads. apply app_nil_r. }
  split; [reflexivity|].
  split; [exact Hreads|].
  split.
  { rewrite Hreads, length_map, length_seq. lia. }
  split; [intros k; apply load_time_succ|].
  split; [reflexivity|].
  eexists. rewrite Hreads.
  change (file_accesses (?e :: ?l)) with (file_accesses l).
  rewrite file_accesses_app, <- (List.map_map _ ReadFromMemoryMappedFile).
  rewrite file_accesses_of_reads. reflexivity.
Qed.


(** ** The first phase *)

Lemma step_flow_map_body_runs (S : Settings) (precision : Z)
    (signed_calc_delta_t : double) (sign_prefix : string) (i : Z)
    (D : DiscreteFlowField) (fs : gmap string file_content) :
  let D1 := Run S precision D in
  let name := step_map_name S precision sign_prefix (time D1) in
  step_flow_map_body S precision signed_calc_delta_t sign_prefix i (D, fs)
  = ([Stdout (msg_calculate_step_flow_map (i + 1) (steps S) (time D)
                (Double.add (time D) signed_calc_delta_t));
      WriteToMemoryMappedFile name (GetAll (CurrentPosition D1));
      Stdout msg_blank],
     inr (set_CurrentPosition (uniform S) D1,
          <[name := StepMapFile (GetAll (CurrentPosition D1))]> fs)).
Proof. reflexivity. Qed.

(** Started on the uniform grid, the first loop writes, at its turn [k],
    the uniform grid advected over one step from the time reached after
    [k] steps, under the name of the time reached after [k+1] steps; it
    leaves the current position on the uniform grid. *)
Lemma step_flow_maps_loop_writes (S : Settings) (precision : Z)
    (signed_calc_delta_t : double) (sign_prefix : string) (n : nat) :
  forall (i : Z) (D : DiscreteFlowField) (fs : gmap string file_content),
    CurrentPosition D = uniform S ->
    exists es D' fs',
      for_loop
        (step_flow_map_body S precision signed_calc_delta_t sign_prefix)
        i n (D, fs) = (es, inr (D', fs'))
      /\ step_maps_written es
         = map (fun k =>
                  (step_map_name S precision sign_prefix
                     (load_time (time D) (signed_delta D) (Datatypes.S k)),
                   GetAll (advect S precision (flow_direction D)
                             (load_time (time D) (signed_delta D) k)
                             (uniform S))))
             (seq 0 n)
      /\ reads es = [] /\ ftle_files_written es = []
      /\ CurrentPosition D' = uniform S
      /\ time D' = load_time (time D) (signed_delta D) n
      /\ delta D' = delta D /\ flow_direction D' = flow_direction D
      /\ InitialPosition D' = InitialPosition D.
Proof.
  induction n as [|n IH]; intros i D fs HU.
  - exists [], D, fs. repeat split; assumption.
  - rewrite for_loop_succ, step_flow_map_body_runs. cbv zeta.
    set (D1 := Run S precision D).
    set (D2 := set_CurrentPosition (uniform S) D1).
    destruct (IH (i + 1) D2
                (<[step_map_name S precision sign_prefix (time D1)
                   := StepMapFile (GetAll (CurrentPosition D1))]> fs)
                eq_refl)
      as (es & D' & fs' & Hrun & Hw & Hr & Hf & HU' & Ht & Hd & Hdir & Hi).
    rewrite bind_value, Hrun. unfold fst, snd.
    eexists _, D', fs'. split; [reflexivity|].
    change (time D2) with (Double.add (time D) (signed_delta D)) in *.
    change (signed_delta D2) with (signed_delta D) in *.
    change (flow_direction D2) with (flow_direction D) in *.
    split.
    { rewrite step_maps_written_app, Hw.
      change (seq 0 (Datatypes.S n)) with (0%nat :: seq 1 n).
      rewrite List.map_cons, map_seq_succ.
      change (step_maps_written [?a; WriteToMemoryMappedFile ?p ?T; ?c])
        with [(p, T)].
      simpl app. f_equal.
      - unfold D1, Run. simpl. rewrite HU. reflexivity.
      - apply List.map_ext. intros k. rewrite !load_time_shift.
        reflexivity. }
    split; [rewrite reads_app, Hr; reflexivity|].
    split; [rewrite ftle_files_written_app, Hf; reflexivity|].
    split; [exact HU'|].
    split; [rewrite Ht, load_time_shift; reflexivity|].
    split; [exact Hd|]. split; [exact Hdir|exact Hi].
Qed.

Lemma step_flow_maps_phase_writes (S : Settings) (precision : Z)
    (t_initial signed_calc_delta_t : double) (sign_prefix : string)
    (D : DiscreteFlowField) (fs : gmap string file_content) :
  exists es D' fs',
    step_flow_maps_phase S precision t_initial signed_calc_delta_t
      sign_prefix (D, fs) = (es, inr (D', fs'))
    /\ step_maps_written es
       = (step_map_name S precision sign_prefix t_initial,
          GetAll (uniform S))
         :: map (fun k =>
                   (step_map_name S precision sign_prefix
                      (load_time t_initial (signed_delta D)
                         (Datatypes.S k)),
                    GetAll (advect S precision (flow_direction D)
                              (load_time t_initial (signed_delta D) k)
                              (uniform S))))
              (seq 0 (Z.to_nat (steps S)))
    /\ reads es = [] /\ ftle_files_written es = []
    /\ CurrentPosition D' = uniform S
    /\ delta D' = delta D /\ flow_direction D' = flow_direction D.
Proof.
  unfold step_flow_maps_phase.
  set (D0 := CopyInitialPositionToCurrentPosition
               (set_InitialPosition (SetAll_range S (InitialPosition
                  (SetInitialTime t_initial D)))
                  (SetInitialTime t_initial D))).
  set (fs0 := <[step_map_name S precision sign_prefix t_initial
                := StepMapFile (GetAll (uniform S))]> fs).
  destruct (step_flow_maps_loop_writes S precision signed_calc_delta_t
              sign_prefix (Z.to_nat (steps S)) 0 D0 fs0 eq_refl)
    as (es & D' & fs' & Hrun & Hw & Hr & Hf & HU' & Ht & Hd & Hdir & Hi).
  change (time D0) with t_initial in *.
  change (signed_delta D0) with (signed_delta D) in *.
  change (flow_direction D0) with (flow_direction D) in *.
  change (delta D0) with (delta D) in *.
  exists ([WriteToMemoryMappedFile
             (step_map_name S precision sign_prefix t_initial)
             (GetAll (uniform S));
           Stdout (msg_start_step_flow_maps t_initial)]
          ++ es ++ [Stdout (msg_initial_loop_ended (steps S))]), D', fs'.
  split.
  { unfold write_step_map, emit. rewrite CreateFileName_step_map_name.
    change (time (set_InitialPosition ?P (SetInitialTime t_initial D)))
      with t_initial.
    trace_steps.
    change (for_loop ?b ?i ?n (_, _)) with (for_loop b i n (D0, fs0)).
    rewrite Hrun. trace_steps. reflexivity. }
  rewrite !step_maps_written_app, !reads_app, !ftle_files_written_app.
  rewrite Hw, Hr, Hf. simpl. rewrite app_nil_r.
  repeat split; assumption.
Qed.

(** ** File names *)

Lemma last_char_append (a b : string) (c : ascii) :
  last_char b = Some c -> last_char (a +:+ b) = Some c.
Proof.
  intros Hb. induction a as [|x a IH]; [exact Hb|].
  change (String x a +:+ b) with (String x (a +:+ b)).
  destruct (a +:+ b) as [|y rest]; [discriminate IH|exact IH].
Qed.

Lemma last_char_path_join (p q : string) (c : ascii) :
  last_char q = Some c -> last_char (path_join p q) = Some c.
Proof.
  intros Hq. unfold path_join.
  destruct (is_absolute q); [exact Hq|].
  destruct (_ || _); repeat apply last_char_append; exact Hq.
Qed.

Lemma step_map_name_last_char (S : Settings) (precision : Z)
    (sign_prefix : string) (t : double) :
  last_char (step_map_name S precision sign_prefix t) = Some "n"%char.
Proof.
  unfold step_map_name. apply last_char_path_join.
  repeat apply last_char_append. reflexivity.
Qed.

Lemma ftle_name_last_char (S : Settings) (precision : Z)
    (sign_prefix : string) (d : Direction) (t t' : double) :
  last_char (ftle_name S precision sign_prefix d t t') = Some "t"%char.
Proof.
  unfold ftle_name. apply last_char_path_join.
  repeat apply last_char_append. reflexivity.
Qed.

(** An FTLE file never takes the place of a step-flow-map file. *)
Lemma ftle_name_is_no_step_map_name (S : Settings) (precision : Z)
    (sign_prefix : string) (d : Direction) (t t' t'' : double) :
  ftle_name S precision sign_prefix d t t'
  <> step_map_name S precision sign_prefix t''.
Proof.
  intros E. apply (f_equal last_char) in E.
  rewrite ftle_name_last_char, step_map_name_last_char in E.
  discriminate.
Qed.

(** ** The second phase depends on the step flow maps only *)




(** ** [main] *)

Lemma main_unopenable (fuel : nat) (fs : gmap string file_content) :
  main fuel Unopenable fs
  = ([Stdout msg_number_of_threads;
      Stderr "Error: unable to open file 'sim_params.json'"],
     inr (1, fs)).
Proof. reflexivity. Qed.


Lemma main_settings_rejected (fuel : nat) (j : json) (f : Failure)
    (fs : gmap string file_content) :
  read_settings j = inl f ->
  main fuel (Document j) fs = ([Stdout msg_number_of_threads], inl f).
Proof. intros H. unfold main. rewrite H. reflexivity. Qed.

Lemma main_document (fuel : nat) (j : json) (S : Settings) (precision : Z)
    (fs : gmap string file_content) :
  read_settings j = inr S ->
  GetPrecision fuel (data_delta_t S) = Value precision ->
  main fuel (Document j) fs
  = bind (emit (Stdout msg_number_of_threads))
      (fun _ => main_from_settings j S precision fs).
Proof.
  intros HS HP. unfold main, main_from_settings.
  rewrite HS, HP. reflexivity.
Qed.



(** ** [GetPrecision] *)




(** ** The configuration document *)

Lemma get_missing (j : json) (key : string) :
  j !! key = None ->
  (exists f, get_double j key = inl f)
  /\ (exists f, get_int j key = inl f)
  /\ (exists f, get_string j key = inl f).
Proof.
  intros H. unfold get_double, get_int, get_string, json_at.
  rewrite H. simpl. repeat split; eexists; reflexivity.
Qed.

Lemma read_settings_missing (j : json) (key : string) :
  In key recognized_keys -> j !! key = None ->
  exists f, read_settings j = inl f.
Proof.
  intros Hin Hnone.
  destruct (get_missing j key Hnone) as ((f1 & H1) & (f2 & H2) & (f3 & H3)).
  unfold read_settings.
  repeat match goal with
         | |- context [and_then ?c _] =>
             let E := fresh "E" in
             destruct c eqn:E; cbn [and_then]; [eexists; reflexivity|]
         end.
  exfalso. simpl in Hin.
  repeat (destruct Hin as [<-|Hin]; [congruence|]).
  exact Hin.
Qed.

Lemma json_at_unknown (j : json) (key : string) (v : json_value)
    (k : string) :
  ~ In key recognized_keys -> In k recognized_keys ->
  json_at (<[key := v]> j) k = json_at j k.
Proof.
  intros Hkey Hk. unfold json_at.
  rewrite lookup_insert_ne; [reflexivity|].
  intros ->. contradiction.
Qed.

Lemma read_settings_unknown (j : json) (key : string) (v : json_value) :
  ~ In key recognized_keys ->
  read_settings (<[key := v]> j) = read_settings j.
Proof.
  intros Hkey. unfold read_settings, get_double, get_int, get_string.
  rewrite !(json_at_unknown j key v _ Hkey) by (simpl; tauto).
  reflexivity.
Qed.

(** C6, as amended. A document in which a recognized key is missing is
    rejected before anything is computed or written: the conversion of the
    missing member throws, and the process ends there. A key that is not
    recognized is not rejected: it is ignored, and the run is the same as
    without it. *)
Theorem C6_missing_key_rejected_unknown_key_ignored (fuel : nat) (j : json)
    (key : string) (v : json_value) (fs : gmap string file_content) :
  (In key recognized_keys -> j !! key = None ->
   exists f, main fuel (Document j) fs
             = ([Stdout msg_number_of_threads], inl f))
  /\ (~ In key recognized_keys ->
      main fuel (Document (<[key := v]> j)) fs = main fuel (Document j) fs).
Proof.
  split.
  - intros Hin Hnone.
    destruct (read_settings_missing j key Hin Hnone) as [f Hf].
    exists f. apply main_settings_rejected, Hf.
  - intros Hkey. unfold main, PrintSettings.
    rewrite (read_settings_unknown j key v Hkey).
    replace (map (json_at (<[key := v]> j)) recognized_keys)
      with (map (json_at j) recognized_keys); [reflexivity|].
    apply List.map_ext_in. intros k Hk. symmetry.
    apply json_at_unknown; assumption.
Qed.

(** ** Exit codes *)

Lemma phases_exit_code (S : Settings) (precision : Z)
    (t_initial t_final signed_calc_delta_t : double) (sign_prefix : string)
    (st : State) (es : list Event) (code : Z)
    (fs' : gmap string file_content) :
  phases S precision t_initial t_final signed_calc_delta_t sign_prefix st
  = (es, inr (code, fs')) ->
  code = 0.
Proof.
  unfold phases. intros H.
  destruct (step_flow_maps_phase _ _ _ _ _ _) as [es1 [f|st1]];
    [discriminate H|].
  rewrite bind_value in H.
  destruct (fast_calculation_phase _ _ _ _ _ _) as [es2 [f|st2]];
    [discriminate H|].
  rewrite bind_value in H. unfold emit in H. rewrite bind_value in H.
  cbn [fst snd ret] in H. congruence.
Qed.

(** When the direction is neither [forward] nor [backward], the program
    prints its diagnostic on standard output, not on the error stream,
    and returns 1. *)
Lemma main_direction_rejected (fuel : nat) (j : json) (S : Settings)
    (precision : Z) (fs : gmap string file_content) :
  read_settings j = inr S ->
  GetPrecision fuel (data_delta_t S) = Value precision ->
  direction S <> "forward" -> direction S <> "backward" ->
  main fuel (Document j) fs
  = ([Stdout msg_number_of_threads;
      Stdout (msg_settings (map (json_at j) recognized_keys));
      Stdout msg_direction_must_be_set],
     inr (1, fs)).
Proof.
  intros HS HP Hf Hb. rewrite (main_document fuel j S precision fs HS HP).
  unfold main_from_settings.
  rewrite !bool_decide_eq_false_2 by assumption. reflexivity.
Qed.

(** The exit codes of [main]: 1 when the configuration file cannot be
    opened, after one line on the error stream; 1 when the direction is
    neither [forward] nor [backward], with nothing on the error stream; 0
    when both phases went through. *)
Lemma main_exit_codes (fuel : nat) (file : config_file)
    (fs fs' : gmap string file_content) (es : list Event) (code : Z) :
  main fuel file fs = (es, inr (code, fs')) ->
  (code = 1 /\ file = Unopenable
   /\ error_lines es = ["Error: unable to open file 'sim_params.json'"%string])
  \/ (code = 1 /\ error_lines es = []
      /\ exists j S, file = Document j /\ read_settings j = inr S
                     /\ direction S <> "forward"%string
                     /\ direction S <> "backward"%string)
  \/ (code = 0
      /\ exists j S, file = Document j /\ read_settings j = inr S
                     /\ (direction S = "forward"%string
                         \/ direction S = "backward"%string)).
Proof.
  intros H. destruct file as [| | |j].
  - left. rewrite main_unopenable in H. injection H as <- <- <-.
    repeat split.
  - discriminate H.
  - discriminate H.
  - destruct (read_settings j) as [f|S] eqn:HS.
    { rewrite (main_settings_rejected fuel j f fs HS) in H. discriminate H. }
    destruct (GetPrecision fuel (data_delta_t S)) as [precision| |] eqn:HP.
    2,3: unfold main in H; rewrite HS, HP in H; discriminate H.
    rewrite (main_document fuel j S precision fs HS HP) in H.
    unfold main_from_settings, PrintSettings, emit in H.
    destruct (bool_decide (direction S = "forward"%string)) eqn:Ef;
      [|destruct (bool_decide (direction S = "backward"%string)) eqn:Eb].
    + right. right.
      destruct (phases S precision (t_min S) (t_max S) (calc_delta_t S)
                  positive_prefix _) as [es1 [f|[c fs1]]] eqn:Hph;
        [discriminate H|].
      apply phases_exit_code in Hph. subst c.
      injection H as _ <- _. split; [reflexivity|].
      exists j, S. apply bool_decide_eq_true in Ef. auto.
    + right. right.
      destruct (phases S precision (t_max S) (t_min S)
                  (Double.opp (calc_delta_t S)) negative_prefix _)
        as [es1 [f|[c fs1]]] eqn:Hph; [discriminate H|].
      apply phases_exit_code in Hph. subst c.
      injection H as _ <- _. split; [reflexivity|].
      exists j, S. apply bool_decide_eq_true in Eb. auto.
    + right. left. injection H as <- <- _.
      split; [reflexivity|]. split; [reflexivity|].
      exists j, S. apply bool_decide_eq_false in Ef.
      apply bool_decide_eq_false in Eb. auto.
Qed.

End Properties.

(** * The properties on sample runs *)

Lemma read_sample_settings (t_max : Z) (data_delta_t : double) (steps : Z)
    (direction : string) :
  read_settings (sample_document t_max data_delta_t steps direction)
  = inr (sample_settings t_max data_delta_t steps direction).
Proof. reflexivity. Qed.

(** C1 as stated fails in a backward run. Two steps backward over [0, 2]:
    the second composition starts at the origin time 2 and loads the step
    flow map of time 2, then the one of time 1, so the maps are chained in
    decreasing time. *)
Lemma C1_backward_run_loads_in_decreasing_time :
  let S := sample_settings 2 (Double.ratio 1 2) 2 "backward" in
  let run := main (K := free_kernels) 400
               (Document (sample_document 2 (Double.ratio 1 2) 2 "backward"))
               ∅ in
  reads (fst run)
  = [ "fast_computation/step_flow_maps/double_gyre_negative_1.0.bin";
      "fast_computation/step_flow_maps/double_gyre_negative_2.0.bin";
      "fast_computation/step_flow_maps/double_gyre_negative_1.0.bin" ]%string
  /\ composition_load_times (t_min S) (Double.opp (calc_delta_t S)) 1
     = [Double.of_int 2; Double.of_int 1]
  /\ increasing
       (composition_load_times (t_min S) (Double.opp (calc_delta_t S)) 1)
     = false.
Proof. vm_compute. repeat split. Qed.

Lemma sample_files_hold_the_sample_step_maps :
  holds_step_maps (K := free_kernels)
    (sample_settings 2 (Double.ratio 1 2) 2 "forward") 1 "positive_"
    sample_files (origin_time (Double.of_int 2) (Double.of_int 1) 1)
    (Double.of_int 1) sample_step_maps.
Proof.
  intros [|[|k]] T H; simpl in H; try discriminate H;
    injection H as <-; vm_compute; reflexivity.
Defined.

Lemma C1_witness :
  let S := sample_settings 2 (Double.ratio 1 2) 2 "forward" in
  0 <= 1
  /\ signed_delta sample_flow_field = Double.of_int 1
  /\ length sample_step_maps = Z.to_nat (1 + 1)
  /\ holds_step_maps (K := free_kernels) S 1 "positive_" sample_files
       (origin_time (Double.of_int 2) (Double.of_int 1) 1) (Double.of_int 1)
       sample_step_maps
  /\ exists es D' fs',
       fast_calculation_body S 1 (Double.of_int 1) "positive_"
         (Double.of_int 2) e_uniform_grid 1 (sample_flow_field, sample_files)
       = (es, inr (D', fs'))
       /\ InitialPosition_time D'
          = Double.sub (Double.of_int 2)
              (Double.mul (Double.of_int 1) (Double.of_int (1 + 1)))
       /\ reads es
          = map (fun k =>
                   step_map_name S 1 "positive_"
                     (load_time (InitialPosition_time D') (Double.of_int 1) k))
              (seq 0 (Z.to_nat (1 + 1)))
       /\ Z.of_nat (length (reads es)) = 1 + 1
       /\ (forall k,
             load_time (InitialPosition_time D') (Double.of_int 1)
               (Datatypes.S k)
             = Double.add
                 (load_time (InitialPosition_time D') (Double.of_int 1) k)
                 (Double.of_int 1))
       /\ CurrentPosition D'
          = chain e_uniform_grid sample_step_maps (uniform S)
       /\ exists name,
            file_accesses es
            = map ReadFromMemoryMappedFile (reads es)
              ++ [WriteToFile name (Calculate D')].
Proof.
  cbv zeta.
  assert (H1 : 0 <= 1) by lia.
  assert (H2 : signed_delta sample_flow_field = Double.of_int 1)
    by reflexivity.
  assert (H3 : length sample_step_maps = Z.to_nat (1 + 1)) by reflexivity.
  split; [exact H1|]. split; [exact H2|]. split; [exact H3|].
  split; [exact sample_files_hold_the_sample_step_maps|].
  exact (C1_composition_reads_then_writes
           (sample_settings 2 (Double.ratio 1 2) 2 "forward") 1
           (Double.of_int 1) "positive_" (Double.of_int 2) e_uniform_grid 1
           sample_flow_field sample_files sample_step_maps H1 H2 H3
           sample_files_hold_the_sample_step_maps).
Defined.

(** C2: what the code does at the failing input. Two steps forward over
    [0, 2]. The first phase writes the identity map under the name of time
    0, the map of the step from 0 under the name of time 1, and the map of
    the step from 1 under the name of time 2. The composition of origin
    1 reads the file of time 1; the composition of origin 0 reads the file
    of time 0, which is the identity map, and then the file of time 1. The
    file of time 2 is never read. *)
Lemma C2_last_composition_reads_the_identity_map :
  let run := main (K := free_kernels) 400
               (Document (sample_document 2 (Double.ratio 1 2) 2 "forward"))
               ∅ in
  step_maps_written (fst run)
  = [ ("fast_computation/step_flow_maps/double_gyre_positive_0.0.bin"%string,
       e_GetAll e_uniform_grid);
      ("fast_computation/step_flow_maps/double_gyre_positive_1.0.bin"%string,
       e_GetAll (e_advect Forward (Double.of_int 0) e_uniform_grid));
      ("fast_computation/step_flow_maps/double_gyre_positive_2.0.bin"%string,
       e_GetAll (e_advect Forward (Double.of_int 1) e_uniform_grid)) ]
  /\ reads (fst run)
     = [ "fast_computation/step_flow_maps/double_gyre_positive_1.0.bin";
         "fast_computation/step_flow_maps/double_gyre_positive_0.0.bin";
         "fast_computation/step_flow_maps/double_gyre_positive_1.0.bin"
       ]%string
  /\ map fst (ftle_files_written (fst run))
     = [ "fast_computation/results/ftle/double_gyre_positive_1.0-2.0.txt";
         "fast_computation/results/ftle/double_gyre_positive_0.0-2.0.txt"
       ]%string
  /\ exit_code (snd run) = Some 0.
Proof. vm_compute. repeat split. Qed.






(** C6 as stated fails: a document with a key the program does not know is
    accepted, and the run goes through to exit code 0. *)
Lemma C6_unknown_key_accepted :
  let j := <["colour" := json_string "blue"]>
             (sample_document 2 (Double.ratio 1 2) 2 "forward") in
  j !! "colour" = Some (json_string "blue")
  /\ ~ In "colour"%string recognized_keys
  /\ read_settings j
     = inr (sample_settings 2 (Double.ratio 1 2) 2 "forward")
  /\ exit_code (snd (main (K := free_kernels) 400 (Document j) ∅)) = Some 0.
Proof.
  cbv zeta. split; [vm_compute; reflexivity|].
  split.
  { intros H. simpl in H.
    repeat (destruct H as [H|H]; [discriminate H|]). exact H. }
  split; vm_compute; reflexivity.
Qed.

Lemma C6_witness :
  In "steps"%string recognized_keys
  /\ delete "steps" (sample_document 2 (Double.ratio 1 2) 2 "forward")
     !! "steps" = None
  /\ ~ In "colour"%string recognized_keys
  /\ (exists f,
        main (K := free_kernels) 400
          (Document
             (delete "steps"
                (sample_document 2 (Double.ratio 1 2) 2 "forward")))
          ∅
        = ([Stdout msg_number_of_threads], inl f))
  /\ main (K := free_kernels) 400
       (Document
          (<["colour" := json_string "blue"]>
             (sample_document 2 (Double.ratio 1 2) 2 "forward")))
       ∅
     = main (K := free_kernels) 400
         (Document (sample_document 2 (Double.ratio 1 2) 2 "forward")) ∅.
Proof.
  assert (H1 : In "steps"%string recognized_keys) by (simpl; tauto).
  assert (H2 : delete "steps"
                 (sample_document 2 (Double.ratio 1 2) 2 "forward")
               !! "steps" = None) by (vm_compute; reflexivity).
  assert (H3 : ~ In "colour"%string recognized_keys).
  { intros H. simpl in H.
    repeat (destruct H as [H|H]; [discriminate H|]). exact H. }
  split; [exact H1|]. split; [exact H2|]. split; [exact H3|].
  split.
  - exact (proj1 (C6_missing_key_rejected_unknown_key_ignored
                    (K := free_kernels) 400
                    (delete "steps"
                       (sample_document 2 (Double.ratio 1 2) 2 "forward"))
                    "steps" json_null ∅) H1 H2).
  - exact (proj2 (C6_missing_key_rejected_unknown_key_ignored
                    (K := free_kernels) 400
                    (sample_document 2 (Double.ratio 1 2) 2 "forward")
                    "colour" (json_string "blue") ∅) H3).
Defined.

(** C7: what the code does at the failing input. With the direction
    [sideways] the program returns 1, its last output is the diagnostic,
    on standard output; nothing is sent to the error stream and no file
    is touched. *)
Lemma C7_direction_diagnostic_on_standard_output :
  let run := main (K := free_kernels) 400
               (Document
                  (sample_document 20 (Double.ratio 2 10) 100 "sideways"))
               ∅ in
  exit_code (snd run) = Some 1
  /\ error_lines (fst run) = []
  /\ file_accesses (fst run) = []
  /\ last (fst run) = Some (Stdout msg_direction_must_be_set).
Proof. vm_compute. repeat split. Qed.


(** C10: what the code does at the failing input. For the double 2^63 the
    conversion to [long long] in the loop condition is undefined, whatever
    the budget; for the largest double below 2^63 the function returns 0. *)
Lemma C10_precision_of_two_to_the_63_is_undefined :
  (forall fuel, GetPrecision (S fuel) (Double.of_int (2 ^ 63)) = Undefined)
  /\ GetPrecision 1 (Double.of_int (2 ^ 63 - 1024)) = Value 0.
Proof.
  split; [intros fuel|]; vm_compute; reflexivity.
Qed.

(** ** Two more runs *)

(** The configuration of the README (100 steps forward over [0, 20],
    cadence 0.2) runs to exit code 0: 101 step flow maps written, 5050
    read, 100 FTLE files, the last one for the whole window. *)
Example readme_run :
  let run := main (K := free_kernels) 400
               (Document
                  (sample_document 20 (Double.ratio 2 10) 100 "forward"))
               ∅ in
  exit_code (snd run) = Some 0
  /\ length (step_maps_written (fst run)) = 101%nat
  /\ Z.of_nat (length (reads (fst run))) = 5050
  /\ length (ftle_files_written (fst run)) = 100%nat
  /\ last (map fst (ftle_files_written (fst run)))
     = Some
         "fast_computation/results/ftle/double_gyre_positive_0.0-20.0.txt"%string.
Proof.
  vm_compute. repeat split.
Qed.

(** The files a composition asks for need not be there. With the cadence
    0.07 the precision is 17, the names show the rounding of the times, and
    the first composition asks for a name the first phase did not write
    (it wrote [...6.93000000000000860.bin]). *)
Example cadence_seven_hundredths_run :
  let run := main (K := free_kernels) 400
               (Document
                  (sample_document 7 (Double.ratio 7 100) 100 "forward"))
               ∅ in
  thrown (snd run)
  = Some
      (io_error
         "fast_computation/step_flow_maps/double_gyre_positive_6.92999999999999972.bin")
  /\ nth 99 (map fst (step_maps_written (fst run))) ""%string
     = "fast_computation/step_flow_maps/double_gyre_positive_6.93000000000000860.bin"%string.
Proof. vm_compute. split; reflexivity. Qed.

(** * Whole runs, file names and the generator *)

Section RunProperties.

Context `{K : Kernels}.

Local Abbreviation DiscreteFlowField := (DiscreteFlowField Position).

Lemma bind_fst {A B : Type} (c : Trace A) (k : A -> Trace B) :
  fst (bind c k)
  = fst c ++ match snd c with inr a => fst (k a) | inl _ => [] end.
Proof.
  destruct c as [es [f|a]]; cbn.
  - rewrite app_nil_r. reflexivity.
  - destruct (k a). reflexivity.
Qed.

Lemma bind_snd {A B : Type} (c : Trace A) (k : A -> Trace B) :
  snd (bind c k) = match snd c with inr a => snd (k a) | inl f => inl f end.
Proof.
  destruct c as [es [f|a]]; cbn.
  - reflexivity.
  - destruct (k a). reflexivity.
Qed.

Ltac run_steps :=
  repeat (rewrite bind_value; cbn beta iota delta [fst snd ret]).

Ltac run_steps_in H :=
  repeat (rewrite bind_value in H; cbn beta iota delta [fst snd ret] in H).

Lemma accessed_paths_app (es es' : list Event) :
  accessed_paths (es ++ es') = accessed_paths es ++ accessed_paths es'.
Proof. apply omap_app. Qed.

Lemma accessed_paths_of_reads (paths : list string) :
  accessed_paths (map ReadFromMemoryMappedFile paths) = paths.
Proof.
  induction paths as [|p paths IH]; [reflexivity|].
  cbn. unfold accessed_paths in IH. rewrite IH. reflexivity.
Qed.

Lemma step_maps_written_of_reads (paths : list string) :
  step_maps_written (map ReadFromMemoryMappedFile paths) = [].
Proof. induction paths as [|p paths IH]; [reflexivity|exact IH]. Qed.

(** *** The inner loop, when it goes through *)

Lemma interpolation_loop_done (S : Settings) (precision : Z)
    (sign_prefix : string) (U : Position) (n : nat) :
  forall (ii : Z) (D : DiscreteFlowField) (fs : gmap string file_content)
         (es : list Event) (D' : DiscreteFlowField)
         (fs' : gmap string file_content),
    for_loop (interpolation_body S precision sign_prefix U) ii n (D, fs)
    = (es, inr (D', fs')) ->
    es = map ReadFromMemoryMappedFile
           (map (fun k => step_map_name S precision sign_prefix
                            (load_time (time D) (signed_delta D) k))
              (seq 0 n))
    /\ fs' = fs
    /\ time D' = load_time (time D) (signed_delta D) n
    /\ InitialPosition_time D' = InitialPosition_time D
    /\ delta D' = delta D
    /\ flow_direction D' = flow_direction D.
Proof.
  induction n as [|n IH]; intros ii D fs es D' fs' Hrun.
  - injection Hrun as <- <- <-. repeat split; reflexivity.
  - rewrite for_loop_succ in Hrun.
    destruct (fs !! step_map_name S precision sign_prefix (time D))
      as [[T| |]|] eqn:E.
    2-4: rewrite interpolation_body_absent in Hrun
           by (intros T; rewrite E; discriminate);
         discriminate Hrun.
    rewrite (interpolation_body_present _ _ _ _ _ _ _ T E) in Hrun.
    rewrite bind_value in Hrun. cbn [fst snd] in Hrun.
    destruct (for_loop (interpolation_body S precision sign_prefix U)
                (ii + 1) n (interpolated U T D, fs))
      as [es1 [f|[D1 fs1]]] eqn:E1; [discriminate Hrun|].
    injection Hrun as <- <- <-.
    destruct (IH _ _ _ _ _ _ E1) as (-> & -> & Ht & Hi & Hd & Hdir).
    change (time (interpolated U T D))
      with (Double.add (time D) (signed_delta D)) in *.
    change (signed_delta (interpolated U T D)) with (signed_delta D) in *.
    split.
    { change (seq 0 (Datatypes.S n)) with (0%nat :: seq 1 n).
      rewrite !List.map_cons, map_seq_succ. cbn [app]. do 2 f_equal.
      apply List.map_ext. intros k. rewrite load_time_shift. reflexivity. }
    split; [reflexivity|].
    split; [rewrite Ht, load_time_shift; reflexivity|].
    split; [exact Hi|]. split; [exact Hd|exact Hdir].
Qed.

(** *** One composition, when it goes through *)

Lemma fast_calculation_body_done (S : Settings) (precision : Z)
    (signed_calc_delta_t : double) (sign_prefix : string)
    (t_final : double) (U : Position) (i : Z) (D : DiscreteFlowField)
    (fs : gmap string file_content) (es : list Event)
    (D' : DiscreteFlowField) (fs' : gmap string file_content) :
  signed_delta D = signed_calc_delta_t ->
  fast_calculation_body S precision signed_calc_delta_t sign_prefix
    t_final U i (D, fs) = (es, inr (D', fs')) ->
  let origin := origin_time t_final signed_calc_delta_t i in
  let name :=
    ftle_name S precision sign_prefix (flow_direction D) origin
      (load_time origin signed_calc_delta_t (Z.to_nat (i + 1))) in
  es = Stdout (msg_fast_calculation (i + 1) (steps S) origin t_final)
       :: map ReadFromMemoryMappedFile
            (map (fun k => step_map_name S precision sign_prefix
                             (load_time origin signed_calc_delta_t k))
               (seq 0 (Z.to_nat (i + 1))))
       ++ [Stdout (msg_calculate_ftle origin);
           WriteToFile name (Calculate D');
           Stdout msg_timestep_finished]
  /\ fs' = <[name := FTLEFile (Calculate D')]> fs
  /\ delta D' = delta D
  /\ flow_direction D' = flow_direction D.
Proof.
  intros Hsd Hrun. cbv zeta.
  set (origin := origin_time t_final signed_calc_delta_t i) in *.
  unfold fast_calculation_body in Hrun. fold origin in Hrun.
  set (D0 := CopyInitialPositionToCurrentPosition
               (SetInitialTime origin
                  (set_InitialPosition (SetAll_range S (InitialPosition D))
                     D))) in *.
  unfold emit in Hrun. rewrite bind_value in Hrun. cbn [fst snd] in Hrun.
  destruct (for_loop (interpolation_body S precision sign_prefix U) 0
              (Z.to_nat (i + 1)) (D0, fs))
    as [es1 [f|[D1 fs1]]] eqn:E1.
  { rewrite bind_failure in Hrun. discriminate Hrun. }
  destruct (interpolation_loop_done _ _ _ _ _ _ _ _ _ _ _ E1)
    as (-> & -> & Ht & Hi & Hd & Hdir).
  change (time D0) with origin in *.
  change (signed_delta D0) with (signed_delta D) in *.
  change (InitialPosition_time D0) with origin in *.
  change (delta D0) with (delta D) in *.
  change (flow_direction D0) with (flow_direction D) in *.
  rewrite Hsd in *.
  unfold write_ftle, emit in Hrun. rewrite !bind_value in Hrun.
  cbn [fst snd ret] in Hrun.
  rewrite CreateFTLEFileName_ftle_name, Hdir, Hi, Ht in Hrun.
  injection Hrun as <- <- <-.
  split; [reflexivity|].
  split; [reflexivity|]. split; [exact Hd|exact Hdir].
Qed.

(** *** The second loop, when it goes through *)

Lemma fast_calculation_loop_done (S : Settings) (precision : Z)
    (d : Direction) (U : Position) (n : nat) :
  forall (i0 : nat) (D : DiscreteFlowField) (fs : gmap string file_content)
         (es : list Event) (D' : DiscreteFlowField)
         (fs' : gmap string file_content),
    signed_delta D = signed_step d S ->
    flow_direction D = d ->
    for_loop
      (fast_calculation_body S precision (signed_step d S) (prefix_of d)
         (final_time d S) U)
      (Z.of_nat i0) n (D, fs) = (es, inr (D', fs')) ->
    accessed_paths es
    = flat_map (fun i => names_asked_by S precision d i
                         ++ [ftle_name_of S precision d i]) (seq i0 n)
    /\ reads es = flat_map (names_asked_by S precision d) (seq i0 n)
    /\ step_maps_written es = []
    /\ map fst (ftle_files_written es)
       = map (ftle_name_of S precision d) (seq i0 n)
    /\ same_step_maps S precision (prefix_of d) fs fs'.
Proof.
  induction n as [|n IH]; intros i0 D fs es D' fs' Hsd Hdir Hrun.
  - injection Hrun as <- <- <-. repeat split; reflexivity.
  - rewrite for_loop_succ in Hrun.
    destruct (fast_calculation_body S precision (signed_step d S)
                (prefix_of d) (final_time d S) U (Z.of_nat i0) (D, fs))
      as [es1 [f|[D1 fs1]]] eqn:E1.
    { rewrite bind_failure in Hrun. discriminate Hrun. }
    rewrite bind_value in Hrun. cbn [fst snd] in Hrun.
    replace (Z.of_nat i0 + 1) with (Z.of_nat (Datatypes.S i0)) in Hrun
      by lia.
    destruct (for_loop
                (fast_calculation_body S precision (signed_step d S)
                   (prefix_of d) (final_time d S) U)
                (Z.of_nat (Datatypes.S i0)) n (D1, fs1))
      as [es2 [f|[D2 fs2]]] eqn:E2; [discriminate Hrun|].
    injection Hrun as <- <- <-.
    destruct (fast_calculation_body_done _ _ _ _ _ _ _ _ _ _ _ _ Hsd E1)
      as (Hes1 & Hfs1 & Hd1 & Hdir1).
    assert (Hsd1 : signed_delta D1 = signed_step d S).
    { unfold signed_delta in *. rewrite Hdir1, Hd1. exact Hsd. }
    rewrite Hdir in Hdir1.
    destruct (IH _ _ _ _ _ _ Hsd1 Hdir1 E2) as (Ha & Hr & Hw & Hf & Hsame).
    assert (Hsame1 : same_step_maps S precision (prefix_of d) fs fs2).
    { intros t. rewrite <- Hsame, Hfs1.
      rewrite lookup_insert_ne; [reflexivity|].
      apply ftle_name_is_no_step_map_name. }
    replace (Z.to_nat (Z.of_nat i0 + 1)) with (Datatypes.S i0) in Hes1
      by lia.
    rewrite Hdir in Hes1.
    fold (names_asked_by S precision d i0) in Hes1.
    fold (ftle_name_of S precision d i0) in Hes1.
    rewrite accessed_paths_app, reads_app, step_maps_written_app,
      ftle_files_written_app, List.map_app, Ha, Hr, Hw, Hf.
    subst es1. cbn [seq flat_map map].
    change (?e :: ?l ++ ?l') with ([e] ++ l ++ l').
    rewrite !accessed_paths_app, !reads_app, !step_maps_written_app,
      !ftle_files_written_app, accessed_paths_of_reads, reads_of_reads,
      step_maps_written_of_reads, ftle_files_written_of_reads.
    cbn. rewrite ?app_nil_r. repeat split; try reflexivity.
    exact Hsame1.
Qed.

(** *** The first phase *)

Lemma accessed_paths_of_writes (es : list Event) :
  reads es = [] -> ftle_files_written es = [] ->
  accessed_paths es = map fst (step_maps_written es).
Proof.
  induction es as [|e es IH]; intros Hr Hf; [reflexivity|].
  destruct e as [line|m|p T|p|p F]; cbn in *;
    try discriminate Hr; try discriminate Hf;
    try (f_equal; apply IH; assumption); apply IH; assumption.
Qed.

Lemma holds_a_step_map_insert (fs : gmap string file_content)
    (name p : string) (T : Tensor) :
  holds_a_step_map fs p ->
  holds_a_step_map (<[name := StepMapFile T]> fs) p.
Proof.
  intros [T' H]. destruct (decide (name = p)) as [->|Hne].
  - exists T. apply lookup_insert_eq.
  - exists T'. rewrite lookup_insert_ne by exact Hne. exact H.
Qed.

Lemma step_flow_maps_loop_files (S : Settings) (precision : Z)
    (signed_calc_delta_t : double) (sign_prefix : string) (n : nat) :
  forall (i : Z) (D : DiscreteFlowField) (fs : gmap string file_content)
         (es : list Event) (D' : DiscreteFlowField)
         (fs' : gmap string file_content),
    for_loop (step_flow_map_body S precision signed_calc_delta_t sign_prefix)
      i n (D, fs) = (es, inr (D', fs')) ->
    (forall p, holds_a_step_map fs p -> holds_a_step_map fs' p)
    /\ (forall p, In p (map fst (step_maps_written es)) ->
                  holds_a_step_map fs' p).
Proof.
  induction n as [|n IH]; intros i D fs es D' fs' Hrun.
  - injection Hrun as <- <- <-. split; [tauto|intros p []].
  - rewrite for_loop_succ, step_flow_map_body_runs in Hrun.
    cbv zeta in Hrun. rewrite bind_value in Hrun. cbn [fst snd] in Hrun.
    set (D1 := Run S precision D) in *.
    set (name := step_map_name S precision sign_prefix (time D1)) in *.
    destruct (for_loop
                (step_flow_map_body S precision signed_calc_delta_t
                   sign_prefix) (i + 1) n
                (set_CurrentPosition (uniform S) D1,
                 <[name := StepMapFile (GetAll (CurrentPosition D1))]> fs))
      as [es2 [f|[D2 fs2]]] eqn:E2; [discriminate Hrun|].
    injection Hrun as <- <- <-.
    destruct (IH _ _ _ _ _ _ E2) as [Hkeep Hnew].
    split.
    + intros p Hp. apply Hkeep, holds_a_step_map_insert, Hp.
    + intros p Hp.
      change (step_maps_written (?a :: WriteToMemoryMappedFile ?q ?T
                                 :: ?c :: es2))
        with ((q, T) :: step_maps_written es2) in Hp.
      destruct Hp as [<-|Hp].
      * apply Hkeep. eexists. apply lookup_insert_eq.
      * apply Hnew, Hp.
Qed.

Lemma step_flow_maps_phase_done (S : Settings) (precision : Z)
    (d : Direction) (D : DiscreteFlowField)
    (fs : gmap string file_content) :
  signed_delta D = signed_step d S ->
  flow_direction D = d ->
  exists es D' fs',
    step_flow_maps_phase S precision (initial_time d S) (signed_step d S)
      (prefix_of d) (D, fs) = (es, inr (D', fs'))
    /\ accessed_paths es = names_written S precision d
    /\ reads es = []
    /\ ftle_files_written es = []
    /\ signed_delta D' = signed_step d S
    /\ flow_direction D' = d
    /\ (forall p, holds_a_step_map fs p -> holds_a_step_map fs' p)
    /\ (forall p, In p (names_written S precision d) ->
                  holds_a_step_map fs' p).
Proof.
  intros Hsd Hdir.
  destruct (step_flow_maps_phase_writes S precision (initial_time d S)
              (signed_step d S) (prefix_of d) D fs)
    as (es & D' & fs' & Hrun & Hw & Hr & Hf & _ & Hd' & Hdir').
  assert (Hnames : map fst (step_maps_written es)
                   = names_written S precision d).
  { rewrite Hw, Hsd. unfold names_written.
    change (seq 0 (Datatypes.S ?n)) with (0%nat :: seq 1 n).
    rewrite !List.map_cons, List.map_map, map_seq_succ. reflexivity. }
  exists es, D', fs'. split; [exact Hrun|].
  split; [rewrite accessed_paths_of_writes by assumption; exact Hnames|].
  split; [exact Hr|]. split; [exact Hf|].
  split; [unfold signed_delta in *; rewrite Hdir', Hd'; exact Hsd|].
  split; [rewrite Hdir'; exact Hdir|].
  (* what the files hold *)
  unfold step_flow_maps_phase in Hrun.
  unfold write_step_map, emit in Hrun. run_steps_in Hrun.
  match type of Hrun with
  | context [for_loop ?b ?i ?n (?D0, ?fs0)] =>
      destruct (for_loop b i n (D0, fs0)) as [es1 [f|[D1 fs1]]] eqn:E1
  end.
  { rewrite bind_failure in Hrun. discriminate Hrun. }
  run_steps_in Hrun.
  injection Hrun as <- <- <-.
  destruct (step_flow_maps_loop_files _ _ _ _ _ _ _ _ _ _ _ E1)
    as [Hkeep Hnew].
  split.
  { intros p Hp. apply Hkeep, holds_a_step_map_insert, Hp. }
  intros p Hp. rewrite <- Hnames in Hp.
  change (step_maps_written (WriteToMemoryMappedFile ?q ?T :: ?b :: ?l))
    with ((q, T) :: step_maps_written l) in Hp.
  destruct Hp as [<-|Hp].
  { apply Hkeep. eexists. apply lookup_insert_eq. }
  rewrite step_maps_written_app, List.map_app in Hp.
  apply in_app_or in Hp. destruct Hp as [Hp|Hp]; [|destruct Hp].
  apply Hnew, Hp.
Qed.

(** *** What the step-flow-map files hold after the first phase *)

Lemma step_flow_maps_loop_last_write (S : Settings) (precision : Z)
    (signed_calc_delta_t : double) (sign_prefix : string) (n : nat) :
  forall (i : Z) (D : DiscreteFlowField) (fs : gmap string file_content)
         (es : list Event) (D' : DiscreteFlowField)
         (fs' : gmap string file_content),
    CurrentPosition D = uniform S ->
    for_loop (step_flow_map_body S precision signed_calc_delta_t sign_prefix)
      i n (D, fs) = (es, inr (D', fs')) ->
    (forall p,
       (forall k, (k < n)%nat ->
          step_map_name S precision sign_prefix
            (load_time (time D) (signed_delta D) (Datatypes.S k)) <> p) ->
       fs' !! p = fs !! p)
    /\ (forall k, (k < n)%nat ->
          (forall k', (k < k' < n)%nat ->
             step_map_name S precision sign_prefix
               (load_time (time D) (signed_delta D) (Datatypes.S k'))
             <> step_map_name S precision sign_prefix
                  (load_time (time D) (signed_delta D) (Datatypes.S k))) ->
          fs' !! step_map_name S precision sign_prefix
                   (load_time (time D) (signed_delta D) (Datatypes.S k))
          = Some (StepMapFile
                    (GetAll (advect S precision (flow_direction D)
                               (load_time (time D) (signed_delta D) k)
                               (uniform S))))).
Proof.
  induction n as [|n IH]; intros i D fs es D' fs' HU Hrun.
  - injection Hrun as <- <- <-. split; [reflexivity|]. intros k Hk. lia.
  - rewrite for_loop_succ, step_flow_map_body_runs in Hrun.
    cbv zeta in Hrun. rewrite bind_value in Hrun. cbn [fst snd] in Hrun.
    set (D1 := Run S precision D) in *.
    set (D2 := set_CurrentPosition (uniform S) D1) in *.
    set (name1 := step_map_name S precision sign_prefix (time D1)) in *.
    destruct (for_loop
                (step_flow_map_body S precision signed_calc_delta_t
                   sign_prefix) (i + 1) n
                (D2, <[name1 := StepMapFile (GetAll (CurrentPosition D1))]> fs))
      as [es2 [f|[D3 fs3]]] eqn:E2; [discriminate Hrun|].
    injection Hrun as <- <- <-.
    destruct (IH (i + 1) D2 _ _ _ _ eq_refl E2) as [Hother Hlast].
    change (time D2) with (Double.add (time D) (signed_delta D)) in *.
    change (signed_delta D2) with (signed_delta D) in *.
    change (flow_direction D2) with (flow_direction D) in *.
    assert (Hname1 : name1
                     = step_map_name S precision sign_prefix
                         (load_time (time D) (signed_delta D) 1))
      by reflexivity.
    assert (Hmap1 : GetAll (CurrentPosition D1)
                    = GetAll (advect S precision (flow_direction D)
                                (load_time (time D) (signed_delta D) 0)
                                (uniform S))).
    { unfold D1, Run. cbn. rewrite HU. reflexivity. }
    split.
    + intros p Hp. rewrite Hother.
      * rewrite lookup_insert_ne; [reflexivity|].
        rewrite Hname1. apply Hp. lia.
      * intros k Hk. rewrite load_time_shift. apply Hp. lia.
    + intros [|k] Hk Hlater.
      * rewrite Hother.
        -- rewrite <- Hname1, <- Hmap1. apply lookup_insert_eq.
        -- intros k' Hk'. rewrite load_time_shift. apply Hlater. lia.
      * rewrite <- (load_time_shift (time D) (signed_delta D)
                      (Datatypes.S k)),
          <- (load_time_shift (time D) (signed_delta D) k).
        apply Hlast; [lia|].
        intros k' Hk'. rewrite !load_time_shift. apply Hlater. lia.
Qed.

Lemma step_flow_maps_phase_last_write (S : Settings) (precision : Z)
    (d : Direction) (D : DiscreteFlowField)
    (fs : gmap string file_content) (es : list Event)
    (D' : DiscreteFlowField) (fs' : gmap string file_content) :
  signed_delta D = signed_step d S ->
  flow_direction D = d ->
  step_flow_maps_phase S precision (initial_time d S) (signed_step d S)
    (prefix_of d) (D, fs) = (es, inr (D', fs')) ->
  forall k, (k <= Z.to_nat (steps S))%nat ->
    (forall k', (k < k' <= Z.to_nat (steps S))%nat ->
       step_map_name_of S precision d k' <> step_map_name_of S precision d k) ->
    fs' !! step_map_name_of S precision d k
    = Some (StepMapFile (step_map_of S precision d k)).
Proof.
  intros Hsd Hdir Hrun k Hk Hlater.
  unfold step_flow_maps_phase in Hrun.
  unfold write_step_map, emit in Hrun. run_steps_in Hrun.
  rewrite CreateFileName_step_map_name in Hrun.
  match type of Hrun with
  | context [for_loop ?b ?i ?n (?D0, ?fs0)] =>
      set (D1 := D0) in *; set (fs1 := fs0) in *;
      destruct (for_loop b i n (D1, fs1)) as [es1 [f|[D2 fs2]]] eqn:E1
  end.
  { rewrite bind_failure in Hrun. discriminate Hrun. }
  run_steps_in Hrun. injection Hrun as <- <- <-.
  destruct (step_flow_maps_loop_last_write _ _ _ _ _ _ D1 _ _ _ _ eq_refl E1)
    as [Hother Hlast].
  change (time D1) with (initial_time d S) in *.
  change (signed_delta D1) with (signed_delta D) in *.
  change (flow_direction D1) with (flow_direction D) in *.
  rewrite Hsd, Hdir in *.
  unfold step_map_name_of in *.
  destruct k as [|k].
  - rewrite Hother.
    + apply lookup_insert_eq.
    + intros k' Hk'. apply Hlater. lia.
  - apply Hlast; [lia|]. intros k' Hk'. apply Hlater. lia.
Qed.

(** *** The second loop goes through when the files are there *)

Lemma step_maps_present (S : Settings) (precision : Z)
    (sign_prefix : string) (fs : gmap string file_content)
    (signed_delta : double) (n : nat) :
  forall t,
    (forall k, (k < n)%nat ->
       holds_a_step_map fs
         (step_map_name S precision sign_prefix (load_time t signed_delta k))) ->
    exists Ts, length Ts = n
               /\ holds_step_maps S precision sign_prefix fs t signed_delta Ts.
Proof.
  induction n as [|n IH]; intros t H.
  - exists []. split; [reflexivity|]. intros k T Hk. discriminate Hk.
  - destruct (H 0%nat ltac:(lia)) as [T0 HT0].
    destruct (IH (Double.add t signed_delta)) as (Ts & Hlen & HTs).
    { intros k Hk. rewrite load_time_shift. apply H. lia. }
    exists (T0 :: Ts). split; [cbn; rewrite Hlen; reflexivity|].
    intros [|k] T Hk.
    + injection Hk as <-. exact HT0.
    + rewrite <- load_time_shift. apply HTs. exact Hk.
Qed.

Lemma fast_calculation_loop_runs (S : Settings) (precision : Z)
    (d : Direction) (U : Position) (n : nat) :
  forall (i0 : nat) (D : DiscreteFlowField) (fs : gmap string file_content),
    signed_delta D = signed_step d S ->
    flow_direction D = d ->
    (forall p, In p (names_written S precision d) ->
       holds_a_step_map fs p) ->
    (forall i, (i0 <= i < i0 + n)%nat ->
       forall p, In p (names_asked_by S precision d i) ->
                 In p (names_written S precision d)) ->
    exists es D' fs',
      for_loop
        (fast_calculation_body S precision (signed_step d S) (prefix_of d)
           (final_time d S) U)
        (Z.of_nat i0) n (D, fs) = (es, inr (D', fs')).
Proof.
  induction n as [|n IH]; intros i0 D fs Hsd Hdir Hfs Hasked.
  - exists [], D, fs. reflexivity.
  - rewrite for_loop_succ.
    destruct (step_maps_present S precision (prefix_of d) fs
                (signed_step d S) (Z.to_nat (Z.of_nat i0 + 1))
                (origin_time (final_time d S) (signed_step d S)
                   (Z.of_nat i0)))
      as (Ts & Hlen & HTs).
    { intros k Hk. apply Hfs, (Hasked i0); [lia|].
      unfold names_asked_by.
      apply (in_map (fun k => step_map_name S precision (prefix_of d)
                                (load_time _ (signed_step d S) k))).
      apply in_seq. lia. }
    rewrite (fast_calculation_body_completes S precision (signed_step d S)
               (prefix_of d) (final_time d S) U (Z.of_nat i0) D fs Ts
               Hsd Hlen HTs).
    rewrite bind_value. cbn [fst snd].
    replace (Z.of_nat i0 + 1) with (Z.of_nat (Datatypes.S i0)) by lia.
    match goal with
    | |- context [for_loop ?b ?i n (?D1, ?fs1)] =>
        destruct (IH (Datatypes.S i0) D1 fs1) as (es & D' & fs' & Hrun)
    end.
    + exact Hsd.
    + exact Hdir.
    + intros p Hp. pose proof (Hfs p Hp) as [T HT].
      unfold names_written in Hp. apply in_map_iff in Hp.
      destruct Hp as (k & <- & _).
      exists T. rewrite lookup_insert_ne; [exact HT|].
      apply ftle_name_is_no_step_map_name.
    + intros i Hi. apply Hasked. lia.
    + rewrite Hrun. eexists _, D', fs'. reflexivity.
Qed.

(** *** Which files a run touches, whatever its outcome *)

Lemma for_loop_Forall {St : Type} (P : Event -> Prop)
    (body : Z -> St -> Trace St) :
  (forall i st, Forall P (fst (body i st))) ->
  forall (n : nat) (i : Z) (st : St), Forall P (fst (for_loop body i n st)).
Proof.
  intros Hbody. induction n as [|n IH]; intros i st; [constructor|].
  rewrite for_loop_succ, bind_fst. apply Forall_app. split; [apply Hbody|].
  destruct (snd (body i st)); [constructor|apply IH].
Qed.

Lemma interpolation_body_trace (S : Settings) (precision : Z)
    (sign_prefix : string) (U : Position) (ii : Z) (D : DiscreteFlowField)
    (fs : gmap string file_content) :
  fst (interpolation_body S precision sign_prefix U ii (D, fs))
  = [ReadFromMemoryMappedFile
       (step_map_name S precision sign_prefix (time D))].
Proof.
  destruct (fs !! step_map_name S precision sign_prefix (time D))
    as [[T| |]|] eqn:E.
  2-4: rewrite interpolation_body_absent
         by (intros T; rewrite E; discriminate); reflexivity.
  rewrite (interpolation_body_present _ _ _ _ _ _ _ T E). reflexivity.
Qed.

Lemma fast_calculation_body_trace (S : Settings) (precision : Z)
    (signed_calc_delta_t : double) (sign_prefix : string)
    (t_final : double) (U : Position) (i : Z) (st : State) :
  Forall (fun e => own_name S precision sign_prefix e
                   /\ step_map_written e = None)
    (fst (fast_calculation_body S precision signed_calc_delta_t sign_prefix
            t_final U i st)).
Proof.
  destruct st as [D fs]. unfold fast_calculation_body.
  unfold emit. run_steps. rewrite bind_fst, !Forall_app.
  split; [|split].
  - repeat constructor.
  - apply for_loop_Forall. intros ii [D1 fs1].
    rewrite interpolation_body_trace. repeat constructor. eexists.
    reflexivity.
  - match goal with
    | |- context [snd ?r] => destruct (snd r) as [f|[D1 fs1]]
    end; [constructor|].
    unfold write_ftle, emit. run_steps.
    rewrite CreateFTLEFileName_ftle_name.
    repeat constructor. eexists _, _, _. reflexivity.
Qed.

Lemma step_flow_maps_phase_trace (S : Settings) (precision : Z)
    (t_initial signed_calc_delta_t : double) (sign_prefix : string)
    (st : State) :
  Forall (fun e => own_name S precision sign_prefix e
                   /\ read_path e = None /\ ftle_written e = None)
    (fst (step_flow_maps_phase S precision t_initial signed_calc_delta_t
            sign_prefix st)).
Proof.
  destruct st as [D fs]. unfold step_flow_maps_phase.
  unfold write_step_map, emit. run_steps.
  rewrite CreateFileName_step_map_name, bind_fst, !Forall_app.
  split; [split|split; [|split]].
  - repeat constructor. eexists. reflexivity.
  - constructor.
  - repeat constructor.
  - apply for_loop_Forall. intros i [D1 fs1].
    rewrite step_flow_map_body_runs. cbv zeta. cbn [fst].
    repeat constructor. eexists. reflexivity.
  - match goal with
    | |- context [snd ?r] => destruct (snd r) as [f|[D1 fs1]]
    end; [constructor|].
    run_steps. repeat constructor.
Qed.

Lemma fast_calculation_phase_trace (S : Settings) (precision : Z)
    (t_final signed_calc_delta_t : double) (sign_prefix : string)
    (st : State) :
  Forall (fun e => own_name S precision sign_prefix e
                   /\ step_map_written e = None)
    (fst (fast_calculation_phase S precision t_final signed_calc_delta_t
            sign_prefix st)).
Proof.
  unfold fast_calculation_phase. rewrite bind_fst. apply Forall_app. split.
  { apply for_loop_Forall. intros i st'. apply fast_calculation_body_trace. }
  match goal with
  | |- context [snd ?r] => destruct (snd r) as [f|st']
  end; [constructor|].
  unfold emit. run_steps. repeat constructor.
Qed.

(** The trace of the two phases: a first part that reads nothing and
    writes no FTLE file, then a second part that writes no step flow
    map. *)
Lemma phases_trace (S : Settings) (precision : Z)
    (t_initial t_final signed_calc_delta_t : double) (sign_prefix : string)
    (st : State) :
  exists esA esB,
    fst (phases S precision t_initial t_final signed_calc_delta_t
           sign_prefix st) = esA ++ esB
    /\ Forall (fun e => own_name S precision sign_prefix e
                        /\ read_path e = None /\ ftle_written e = None) esA
    /\ Forall (fun e => own_name S precision sign_prefix e
                        /\ step_map_written e = None) esB.
Proof.
  unfold phases. rewrite bind_fst.
  eexists _, _. split; [reflexivity|]. split.
  { apply step_flow_maps_phase_trace. }
  match goal with
  | |- context [snd ?r] => destruct (snd r) as [f|stA]
  end; [constructor|].
  rewrite bind_fst. apply Forall_app. split.
  { apply fast_calculation_phase_trace. }
  match goal with
  | |- context [snd ?r] => destruct (snd r) as [f|stB]
  end; [constructor|].
  unfold emit. run_steps. repeat constructor.
Qed.

Lemma omap_none {A : Type} (f : Event -> option A) (es : list Event) :
  Forall (fun e => f e = None) es -> omap f es = [].
Proof.
  induction 1 as [|e es He _ IH]; [reflexivity|].
  cbn. rewrite He. exact IH.
Qed.

Lemma main_stops_early (fuel : nat) (file : config_file)
    (fs : gmap string file_content) :
  (exists j S precision d,
     file = Document j
     /\ read_settings j = inr S
     /\ GetPrecision fuel (data_delta_t S) = Value precision
     /\ chosen_direction S = Some d)
  \/ (reads (fst (main fuel file fs)) = []
      /\ step_maps_written (fst (main fuel file fs)) = []
      /\ ftle_files_written (fst (main fuel file fs)) = []
      /\ accessed_paths (fst (main fuel file fs)) = []).
Proof.
  destruct file as [| | |j]; try (right; repeat split; reflexivity).
  unfold main.
  destruct (read_settings j) as [f|S] eqn:Hj;
    [right; repeat split; reflexivity|].
  destruct (GetPrecision fuel (data_delta_t S)) as [precision| |] eqn:HP;
    try (right; repeat split; reflexivity).
  destruct (chosen_direction S) as [d|] eqn:Hd.
  - left. eauto 10.
  - right. unfold chosen_direction in Hd.
    destruct (bool_decide (direction S = "forward")); [discriminate Hd|].
    destruct (bool_decide (direction S = "backward")); [discriminate Hd|].
    repeat split; reflexivity.
Qed.

(** *** The whole run *)

Lemma main_runs (fuel : nat) (j : json) (S : Settings) (precision : Z)
    (d : Direction) (fs : gmap string file_content) :
  read_settings j = inr S ->
  GetPrecision fuel (data_delta_t S) = Value precision ->
  chosen_direction S = Some d ->
  main fuel (Document j) fs
  = bind (emit (Stdout msg_number_of_threads)) (fun _ =>
    bind (PrintSettings j) (fun _ =>
    bind (emit (Stdout (begins d))) (fun _ =>
      phases S precision (initial_time d S) (final_time d S)
        (signed_step d S) (prefix_of d) (initial_field d S, fs)))).
Proof.
  intros Hj HP Hd. unfold main. rewrite Hj, HP.
  unfold chosen_direction in Hd.
  destruct (bool_decide (direction S = "forward")).
  - injection Hd as <-. reflexivity.
  - destruct (bool_decide (direction S = "backward")); [|discriminate Hd].
    injection Hd as <-. reflexivity.
Qed.


Lemma initial_field_step (d : Direction) (S : Settings) :
  signed_delta (initial_field d S) = signed_step d S
  /\ flow_direction (initial_field d S) = d.
Proof. destruct d; split; reflexivity. Qed.

Lemma phases_done (S : Settings) (precision : Z) (d : Direction)
    (D : DiscreteFlowField) (fs : gmap string file_content)
    (es : list Event) (code : Z) (fs' : gmap string file_content) :
  signed_delta D = signed_step d S ->
  flow_direction D = d ->
  phases S precision (initial_time d S) (final_time d S) (signed_step d S)
    (prefix_of d) (D, fs) = (es, inr (code, fs')) ->
  code = 0
  /\ accessed_paths es = schedule S precision d
  /\ reads es
     = flat_map (names_asked_by S precision d) (seq 0 (Z.to_nat (steps S)))
  /\ map fst (step_maps_written es) = names_written S precision d
  /\ map fst (ftle_files_written es)
     = map (ftle_name_of S precision d) (seq 0 (Z.to_nat (steps S))).
Proof.
  intros Hsd Hdir Hrun. unfold phases in Hrun.
  destruct (step_flow_maps_phase_done S precision d D fs Hsd Hdir)
    as (esA & DA & fsA & HA & Hpaths & Hr & Hf & HsdA & HdirA & _ & _).
  rewrite HA, bind_value in Hrun. cbn [fst snd] in Hrun.
  unfold fast_calculation_phase in Hrun.
  match type of Hrun with
  | context [for_loop ?b 0 ?n (DA, fsA)] =>
      destruct (for_loop b 0 n (DA, fsA)) as [esB [f|[DB fsB]]] eqn:EB
  end.
  { rewrite bind_failure in Hrun. discriminate Hrun. }
  unfold emit in Hrun. run_steps_in Hrun. injection Hrun as <- <- <-.
  destruct (fast_calculation_loop_done S precision d _ _ 0%nat _ _ _ _ _
              HsdA HdirA EB) as (Ha & Hrd & Hw & Hft & _).
  split; [reflexivity|].
  rewrite !accessed_paths_app, !reads_app, !step_maps_written_app,
    !ftle_files_written_app, !List.map_app, Ha, Hrd, Hw, Hft, Hr, Hf.
  rewrite <- (accessed_paths_of_writes esA Hr Hf), Hpaths.
  cbn. rewrite ?app_nil_r. repeat split; reflexivity.
Qed.

Lemma phases_run (S : Settings) (precision : Z) (d : Direction)
    (D : DiscreteFlowField) (fs : gmap string file_content) :
  signed_delta D = signed_step d S ->
  flow_direction D = d ->
  asks_only_written S precision d = true ->
  exists es fs',
    phases S precision (initial_time d S) (final_time d S) (signed_step d S)
      (prefix_of d) (D, fs) = (es, inr (0, fs')).
Proof.
  intros Hsd Hdir Hasks. unfold phases.
  destruct (step_flow_maps_phase_done S precision d D fs Hsd Hdir)
    as (esA & DA & fsA & HA & _ & _ & _ & HsdA & HdirA & _ & HfsA).
  rewrite HA, bind_value. cbn [fst snd].
  unfold fast_calculation_phase.
  destruct (fast_calculation_loop_runs S precision d
              (SetAll_range S (Position_new (nx S) (ny S)))
              (Z.to_nat (steps S)) 0%nat DA fsA HsdA HdirA HfsA)
    as (esB & DB & fsB & HB).
  { intros i Hi p Hp. unfold asks_only_written in Hasks. cbv zeta in Hasks.
    rewrite forallb_forall in Hasks.
    assert (Hin : In i (seq 0 (Z.to_nat (steps S)))) by (apply in_seq; lia).
    specialize (Hasks i Hin). rewrite forallb_forall in Hasks.
    specialize (Hasks p Hp). apply existsb_exists in Hasks.
    destruct Hasks as (q & Hq & Heq). apply String.eqb_eq in Heq.
    subst q. exact Hq. }
  change (Z.of_nat 0) with 0 in HB. rewrite HB.
  unfold emit. rewrite !bind_value. cbn [fst snd ret].
  eexists _, _. reflexivity.
Qed.




Lemma main_trace (fuel : nat) (j : json) (S : Settings) (precision : Z)
    (d : Direction) (fs : gmap string file_content) :
  read_settings j = inr S ->
  GetPrecision fuel (data_delta_t S) = Value precision ->
  chosen_direction S = Some d ->
  exists esA esB,
    fst (main fuel (Document j) fs) = esA ++ esB
    /\ Forall (fun e => own_name S precision (prefix_of d) e
                        /\ read_path e = None /\ ftle_written e = None) esA
    /\ Forall (fun e => own_name S precision (prefix_of d) e
                        /\ step_map_written e = None) esB.
Proof.
  intros Hj HP Hd. rewrite (main_runs fuel j S precision d fs Hj HP Hd).
  destruct (phases_trace S precision (initial_time d S) (final_time d S)
              (signed_step d S) (prefix_of d) (initial_field d S, fs))
    as (esA & esB & Hes & HA & HB).
  unfold PrintSettings, emit. run_steps. rewrite Hes.
  eexists (_ :: _ :: _ :: esA), esB. split; [reflexivity|].
  split; [|exact HB]. repeat (constructor; [repeat split|]). exact HA.
Qed.

Lemma Forall_own_name (S : Settings) (precision : Z) (sign_prefix : string)
    (es : list Event) :
  Forall (own_name S precision sign_prefix) es ->
  (forall p, In p (reads es) \/ In p (map fst (step_maps_written es)) ->
     exists t, p = step_map_name S precision sign_prefix t)
  /\ (forall p, In p (map fst (ftle_files_written es)) ->
        exists d t t', p = ftle_name S precision sign_prefix d t t').
Proof.
  induction 1 as [|e es He _ [IH1 IH2]].
  - split; [intros p [[]|[]]|intros p []].
  - split.
    + intros p Hp.
      destruct e as [line|m|q T|q|q F]; cbn in Hp, He;
        try (apply IH1; exact Hp).
      * destruct Hp as [Hp|[<-|Hp]]; [apply IH1; left; exact Hp|exact He|].
        apply IH1. right. exact Hp.
      * destruct Hp as [[<-|Hp]|Hp]; [exact He| |].
        -- apply IH1. left. exact Hp.
        -- apply IH1. right. exact Hp.
    + intros p Hp.
      destruct e as [line|m|q T|q|q F]; cbn in Hp, He;
        try (apply IH2; exact Hp).
      destruct Hp as [<-|Hp]; [exact He|apply IH2; exact Hp].
Qed.

Lemma main_own_names (fuel : nat) (j : json) (S : Settings) (precision : Z)
    (d : Direction) (fs : gmap string file_content) :
  read_settings j = inr S ->
  GetPrecision fuel (data_delta_t S) = Value precision ->
  chosen_direction S = Some d ->
  Forall (own_name S precision (prefix_of d)) (fst (main fuel (Document j) fs)).
Proof.
  intros Hj HP Hd.
  destruct (main_trace fuel j S precision d fs Hj HP Hd)
    as (esA & esB & -> & HA & HB).
  apply Forall_app. split.
  - eapply Forall_impl; [exact HA|]. intros e He. apply He.
  - eapply Forall_impl; [exact HB|]. intros e He. apply He.
Qed.

(** *** File names as texts *)

Lemma is_absolute_append (a b : string) :
  a <> "" -> is_absolute (a +:+ b) = is_absolute a.
Proof. destruct a as [|c a]; [congruence|reflexivity]. Qed.

Lemma prefixed_name_absolute (file_prefix : string) (d : Direction)
    (rest : string) :
  is_absolute (file_prefix +:+ prefix_of d +:+ rest)
  = is_absolute file_prefix.
Proof.
  destruct file_prefix as [|c a]; [|reflexivity].
  destruct d; reflexivity.
Qed.

Lemma step_map_name_text (S : Settings) (precision : Z) (d : Direction)
    (t : double) :
  step_map_name S precision (prefix_of d) t
  = (if is_absolute (file_prefix S) then ""
     else "fast_computation/step_flow_maps/")
    +:+ file_prefix S +:+ prefix_of d +:+ fixed precision t +:+ ".bin".
Proof.
  unfold step_map_name, path_join at 1.
  rewrite prefixed_name_absolute.
  destruct (is_absolute (file_prefix S)); reflexivity.
Qed.

Lemma ftle_name_text (S : Settings) (precision : Z) (d d' : Direction)
    (t t' : double) :
  exists t_a t_b,
    ftle_name S precision (prefix_of d) d' t t'
    = (if is_absolute (file_prefix S) then ""
       else "fast_computation/results/ftle/")
      +:+ file_prefix S +:+ prefix_of d +:+ fixed precision t_a +:+ "-"
      +:+ fixed precision t_b +:+ ".txt"
    /\ (t_a, t_b) = match d' with Forward => (t, t') | Backward => (t', t) end.
Proof.
  exists (match d' with Forward => t | Backward => t' end),
    (match d' with Forward => t' | Backward => t end).
  split; [|destruct d'; reflexivity].
  unfold ftle_name, path_join at 1.
  rewrite prefixed_name_absolute.
  destruct (is_absolute (file_prefix S)); reflexivity.
Qed.


(** X3. Whatever the outcome of a run, its trace splits in two: a first
    part in which no step flow map is read and no FTLE file is written,
    and a second part in which no step flow map is written. Every step
    flow map is on disk before the first one is read, and none is
    overwritten while compositions run. *)
Theorem step_maps_are_written_before_any_is_read (fuel : nat)
    (file : config_file) (fs : gmap string file_content) :
  exists esA esB,
    fst (main fuel file fs) = esA ++ esB
    /\ reads esA = []
    /\ ftle_files_written esA = []
    /\ step_maps_written esB = []
    /\ step_maps_written (fst (main fuel file fs)) = step_maps_written esA.
Proof.
  destruct (main_stops_early fuel file fs)
    as [(j & S & precision & d & -> & Hj & HP & Hd)|(Hr & Hw & Hf & _)].
  - destruct (main_trace fuel j S precision d fs Hj HP Hd)
      as (esA & esB & Hes & HA & HB).
    exists esA, esB. split; [exact Hes|].
    assert (HwB : step_maps_written esB = []).
    { apply omap_none. eapply Forall_impl; [exact HB|].
      intros e He. apply He. }
    split; [apply omap_none; eapply Forall_impl; [exact HA|];
            intros e He; apply He|].
    split; [apply omap_none; eapply Forall_impl; [exact HA|];
            intros e He; apply He|].
    split; [exact HwB|].
    rewrite Hes, step_maps_written_app, HwB, app_nil_r. reflexivity.
  - exists (fst (main fuel file fs)), [].
    rewrite app_nil_r. repeat split; assumption.
Qed.

(** X4. The text of every file name of a run. A step flow map, read or
    written, is [{file_prefix}{sign_prefix}{t:.Pf}.bin] and an FTLE file
    is [{file_prefix}{sign_prefix}{t_a:.Pf}-{t_b:.Pf}.txt], after
    [fast_computation/step_flow_maps/] and [fast_computation/results/ftle/]
    when [file_prefix] does not begin with a slash. When it does, the
    directory is dropped: the files are created where the prefix points. *)
Theorem file_names_of_a_run (fuel : nat) (j : json) (S : Settings)
    (precision : Z) (d : Direction) (fs : gmap string file_content) :
  read_settings j = inr S ->
  GetPrecision fuel (data_delta_t S) = Value precision ->
  chosen_direction S = Some d ->
  (forall p,
     In p (reads (fst (main fuel (Document j) fs)))
     \/ In p (map fst (step_maps_written (fst (main fuel (Document j) fs)))) ->
     exists t,
       p = (if is_absolute (file_prefix S) then ""
            else "fast_computation/step_flow_maps/")
           +:+ file_prefix S +:+ prefix_of d +:+ fixed precision t
           +:+ ".bin")
  /\ (forall p,
        In p (map fst (ftle_files_written (fst (main fuel (Document j) fs)))) ->
        exists t_a t_b,
          p = (if is_absolute (file_prefix S) then ""
               else "fast_computation/results/ftle/")
              +:+ file_prefix S +:+ prefix_of d +:+ fixed precision t_a
              +:+ "-" +:+ fixed precision t_b +:+ ".txt").
Proof.
  intros Hj HP Hd.
  destruct (Forall_own_name _ _ _ _
              (main_own_names fuel j S precision d fs Hj HP Hd))
    as [Hmaps Hftle].
  split.
  - intros p Hp. destruct (Hmaps p Hp) as [t ->].
    exists t. apply step_map_name_text.
  - intros p Hp. destruct (Hftle p Hp) as (d' & t & t' & ->).
    destruct (ftle_name_text S precision d d' t t') as (t_a & t_b & H & _).
    exists t_a, t_b. exact H.
Qed.


(** X6. A negative number of steps is accepted and runs as no step at
    all: neither loop body runs, the step flow map of [t_initial] is the
    only file touched, and the exit code is 0. *)
Theorem negative_steps_run_no_step (fuel : nat) (j : json) (S : Settings)
    (precision : Z) (d : Direction) (fs : gmap string file_content) :
  read_settings j = inr S ->
  steps S < 0 ->
  GetPrecision fuel (data_delta_t S) = Value precision ->
  chosen_direction S = Some d ->
  exit_code (snd (main fuel (Document j) fs)) = Some 0
  /\ accessed_paths (fst (main fuel (Document j) fs))
     = [step_map_name S precision (prefix_of d) (initial_time d S)]
  /\ map fst (step_maps_written (fst (main fuel (Document j) fs)))
     = [step_map_name S precision (prefix_of d) (initial_time d S)]
  /\ reads (fst (main fuel (Document j) fs)) = []
  /\ ftle_files_written (fst (main fuel (Document j) fs)) = [].
Proof.
  intros Hj Hsteps HP Hd.
  assert (Hn : Z.to_nat (steps S) = 0%nat) by lia.
  assert (Hasks : asks_only_written S precision d = true).
  { unfold asks_only_written. cbv zeta. rewrite Hn. reflexivity. }
  rewrite (main_runs fuel j S precision d fs Hj HP Hd).
  destruct (initial_field_step d S) as [Hsd Hdir].
  destruct (phases_run S precision d (initial_field d S) fs Hsd Hdir Hasks)
    as (es & fs' & Hrun).
  destruct (phases_done S precision d _ _ _ _ _ Hsd Hdir Hrun)
    as (_ & Ha & Hr & Hw & Hf).
  unfold PrintSettings, emit. run_steps. rewrite Hrun. cbn [fst snd app].
  change (accessed_paths (Stdout ?a :: Stdout ?b :: Stdout ?c :: es))
    with (accessed_paths es).
  change (reads (Stdout ?a :: Stdout ?b :: Stdout ?c :: es)) with (reads es).
  change (step_maps_written (Stdout ?a :: Stdout ?b :: Stdout ?c :: es))
    with (step_maps_written es).
  change (ftle_files_written (Stdout ?a :: Stdout ?b :: Stdout ?c :: es))
    with (ftle_files_written es).
  unfold schedule, names_written in Ha. unfold names_written in Hw.
  rewrite Hn in Ha, Hr, Hw, Hf.
  split; [reflexivity|]. split; [exact Ha|]. split; [exact Hw|].
  split; [exact Hr|].
  destruct (ftle_files_written es); [reflexivity|discriminate Hf].
Qed.

Lemma phases_split (S : Settings) (precision : Z) (d : Direction)
    (D : DiscreteFlowField) (fs : gmap string file_content)
    (es : list Event) (code : Z) (fs' : gmap string file_content) :
  phases S precision (initial_time d S) (final_time d S) (signed_step d S)
    (prefix_of d) (D, fs) = (es, inr (code, fs')) ->
  exists esA DA fsA esB DB,
    step_flow_maps_phase S precision (initial_time d S) (signed_step d S)
      (prefix_of d) (D, fs) = (esA, inr (DA, fsA))
    /\ for_loop
         (fast_calculation_body S precision (signed_step d S) (prefix_of d)
            (final_time d S) (SetAll_range S (Position_new (nx S) (ny S))))
         0 (Z.to_nat (steps S)) (DA, fsA) = (esB, inr (DB, fs')).
Proof.
  intros Hrun. unfold phases in Hrun.
  destruct (step_flow_maps_phase S precision (initial_time d S)
              (signed_step d S) (prefix_of d) (D, fs))
    as [esA [f|[DA fsA]]] eqn:EA.
  { rewrite bind_failure in Hrun. discriminate Hrun. }
  rewrite bind_value in Hrun. cbn [fst snd] in Hrun.
  unfold fast_calculation_phase in Hrun.
  match type of Hrun with
  | context [for_loop ?b 0 ?n (DA, fsA)] =>
      destruct (for_loop b 0 n (DA, fsA)) as [esB [f|[DB fsB]]] eqn:EB
  end.
  { rewrite bind_failure in Hrun. discriminate Hrun. }
  unfold emit in Hrun. run_steps_in Hrun. injection Hrun as <- <- <-.
  eexists _, _, _, _, _. split; [reflexivity|exact EB].
Qed.

(** X7. What a step-flow-map file holds when the run is over. The file
    named after the time of turn [k] of the first phase holds the step flow
    map of turn [k] if no later turn has the same name; so when the names
    of two turns coincide, which happens as soon as their times agree to
    [P] decimals, the map of the earlier turn is lost and the file holds
    the later one. The compositions change no step flow map. *)
Theorem last_step_map_under_a_name_stays (fuel : nat) (j : json)
    (S : Settings) (precision : Z) (d : Direction)
    (fs : gmap string file_content) (k : nat) :
  read_settings j = inr S ->
  GetPrecision fuel (data_delta_t S) = Value precision ->
  chosen_direction S = Some d ->
  exit_code (snd (main fuel (Document j) fs)) = Some 0 ->
  (k <= Z.to_nat (steps S))%nat ->
  (forall k', (k < k' <= Z.to_nat (steps S))%nat ->
     step_map_name_of S precision d k' <> step_map_name_of S precision d k) ->
  files_after (snd (main fuel (Document j) fs))
    !! step_map_name_of S precision d k
  = Some (StepMapFile (step_map_of S precision d k)).
Proof.
  intros Hj HP Hd Hexit Hk Hlater.
  rewrite (main_runs fuel j S precision d fs Hj HP Hd) in *.
  destruct (initial_field_step d S) as [Hsd Hdir].
  unfold PrintSettings, emit in *. run_steps_in Hexit. run_steps.
  destruct (phases S precision (initial_time d S) (final_time d S)
              (signed_step d S) (prefix_of d) (initial_field d S, fs))
    as [es [f|[code fs']]] eqn:Hrun; [discriminate Hexit|].
  cbn [snd files_after].
  destruct (phases_split S precision d _ _ _ _ _ Hrun)
    as (esA & DA & fsA & esB & DB & HA & HB).
  destruct (step_flow_maps_phase_done S precision d _ fs Hsd Hdir)
    as (esA' & DA' & fsA' & HA' & _ & _ & _ & HsdA & HdirA & _).
  rewrite HA in HA'. injection HA' as <- <- <-.
  change 0 with (Z.of_nat 0) in HB.
  destruct (fast_calculation_loop_done S precision d _ _ _ _ _ _ _ _
              HsdA HdirA HB) as (_ & _ & _ & _ & Hsame).
  unfold step_map_name_of at 1. rewrite <- Hsame.
  exact (step_flow_maps_phase_last_write S precision d _ _ _ _ _ Hsd Hdir HA
           k Hk Hlater).
Qed.

(** *** [PrintSettings] *)

Lemma converted_member (j : json) (key : string) :
  (exists x, get_double j key = inr x)
  \/ (exists x, get_int j key = inr x)
  \/ (exists x, get_string j key = inr x) ->
  exists v, j !! key = Some v /\ v <> json_null.
Proof.
  unfold get_double, get_int, get_string, json_at.
  destruct (j !! key) as [v|]; cbn.
  - intros H. exists v. split; [reflexivity|]. intros ->.
    destruct H as [[x H]|[[x H]|[x H]]]; discriminate H.
  - intros [[x H]|[[x H]|[x H]]]; discriminate H.
Qed.

(** X8. [PrintSettings] looks the fourteen members up through a constant
    reference, where a missing member is not created. [main] calls it only
    once the fourteen conversions have gone through, and then every member
    it prints is in the document and is not [null]: the values printed are
    those of the document, in the order of the source. *)
Theorem PrintSettings_finds_every_member (fuel : nat) (j : json)
    (S : Settings) (precision : Z) (fs : gmap string file_content) :
  read_settings j = inr S ->
  GetPrecision fuel (data_delta_t S) = Value precision ->
  (forall key, In key recognized_keys ->
     exists v, j !! key = Some v /\ v <> json_null
               /\ json_at j key = v)
  /\ exists es,
       fst (main fuel (Document j) fs)
       = Stdout msg_number_of_threads
         :: Stdout (msg_settings (map (json_at j) recognized_keys)) :: es.
Proof.
  intros Hj HP. split.
  - intros key Hkey.
    assert (H : exists v, j !! key = Some v /\ v <> json_null).
    { apply converted_member. unfold read_settings in Hj.
      repeat match type of Hj with
             | and_then ?c _ = _ =>
                 let E := fresh "E" in
                 destruct c eqn:E; cbn [and_then] in Hj; [discriminate Hj|]
             end.
      simpl in Hkey.
      repeat (destruct Hkey as [<-|Hkey]; [eauto|]). destruct Hkey. }
    destruct H as (v & Hv & Hnull). exists v.
    split; [exact Hv|]. split; [exact Hnull|].
    unfold json_at. rewrite Hv. reflexivity.
  - unfold main. rewrite Hj, HP. unfold PrintSettings, emit. run_steps.
    eexists. reflexivity.
Qed.


(** *** Files left behind by earlier runs *)






(** *** What the FTLE files hold after the second phase *)

Lemma fast_calculation_loop_last_write (S : Settings) (precision : Z)
    (d : Direction) (U : Position) (n : nat) :
  forall (i0 : nat) (D : DiscreteFlowField) (fs : gmap string file_content)
         (es : list Event) (D' : DiscreteFlowField)
         (fs' : gmap string file_content),
    signed_delta D = signed_step d S ->
    flow_direction D = d ->
    for_loop
      (fast_calculation_body S precision (signed_step d S) (prefix_of d)
         (final_time d S) U)
      (Z.of_nat i0) n (D, fs) = (es, inr (D', fs')) ->
    (forall p,
       (forall k, (k < n)%nat -> ftle_name_of S precision d (i0 + k) <> p) ->
       fs' !! p = fs !! p)
    /\ (forall k, (k < n)%nat ->
          (forall k', (k < k' < n)%nat ->
             ftle_name_of S precision d (i0 + k')
             <> ftle_name_of S precision d (i0 + k)) ->
          exists F,
            ftle_files_written es !! k
            = Some (ftle_name_of S precision d (i0 + k), F)
            /\ fs' !! ftle_name_of S precision d (i0 + k)
               = Some (FTLEFile F)).
Proof.
  induction n as [|n IH]; intros i0 D fs es D' fs' Hsd Hdir Hrun.
  - injection Hrun as <- <- <-. split; [reflexivity|]. intros k Hk. lia.
  - rewrite for_loop_succ in Hrun.
    destruct (fast_calculation_body S precision (signed_step d S)
                (prefix_of d) (final_time d S) U (Z.of_nat i0) (D, fs))
      as [es1 [f|[D1 fs1]]] eqn:E1.
    { rewrite bind_failure in Hrun. discriminate Hrun. }
    rewrite bind_value in Hrun. cbn [fst snd] in Hrun.
    replace (Z.of_nat i0 + 1) with (Z.of_nat (Datatypes.S i0)) in Hrun
      by lia.
    destruct (for_loop
                (fast_calculation_body S precision (signed_step d S)
                   (prefix_of d) (final_time d S) U)
                (Z.of_nat (Datatypes.S i0)) n (D1, fs1))
      as [es2 [f|[D2 fs2]]] eqn:E2; [discriminate Hrun|].
    injection Hrun as <- <- <-.
    destruct (fast_calculation_body_done _ _ _ _ _ _ _ _ _ _ _ _ Hsd E1)
      as (Hes1 & Hfs1 & Hd1 & Hdir1).
    assert (Hsd1 : signed_delta D1 = signed_step d S).
    { unfold signed_delta in *. rewrite Hdir1, Hd1. exact Hsd. }
    rewrite Hdir in Hdir1, Hes1, Hfs1.
    replace (Z.to_nat (Z.of_nat i0 + 1)) with (Datatypes.S i0)
      in Hes1, Hfs1 by lia.
    fold (ftle_name_of S precision d i0) in Hes1, Hfs1.
    destruct (IH _ _ _ _ _ _ Hsd1 Hdir1 E2) as [Hother Hlast].
    assert (Hw : ftle_files_written (es1 ++ es2)
                 = (ftle_name_of S precision d i0, Calculate D1)
                   :: ftle_files_written es2).
    { rewrite ftle_files_written_app, Hes1.
      change (?e :: ?l ++ ?l') with ([e] ++ l ++ l').
      rewrite !ftle_files_written_app, ftle_files_written_of_reads.
      reflexivity. }
    split.
    + intros p Hp. rewrite Hother.
      * rewrite Hfs1, lookup_insert_ne; [reflexivity|].
        replace i0 with (i0 + 0)%nat at 1 by lia. apply Hp. lia.
      * intros k Hk. replace (Datatypes.S i0 + k)%nat
          with (i0 + Datatypes.S k)%nat by lia. apply Hp. lia.
    + intros [|k] Hk Hlater.
      * exists (Calculate D1). rewrite Hw. split.
        { replace (i0 + 0)%nat with i0 by lia. reflexivity. }
        rewrite Hother.
        -- rewrite Hfs1. replace (i0 + 0)%nat with i0 by lia.
           apply lookup_insert_eq.
        -- intros k' Hk'. replace (Datatypes.S i0 + k')%nat
             with (i0 + Datatypes.S k')%nat by lia. apply Hlater. lia.
      * destruct (Hlast k ltac:(lia)) as (F & HF & Hfs).
        { intros k' Hk'.
          replace (Datatypes.S i0 + k')%nat with (i0 + Datatypes.S k')%nat
            by lia.
          replace (Datatypes.S i0 + k)%nat with (i0 + Datatypes.S k)%nat
            by lia.
          apply Hlater. lia. }
        replace (Datatypes.S i0 + k)%nat with (i0 + Datatypes.S k)%nat
          in HF, Hfs by lia.
        exists F. rewrite Hw. split; [exact HF|exact Hfs].
Qed.

(** X17. What an FTLE file holds when the run is over. The FTLE field of
    composition [i] is in the file named after its two times if no later
    composition has the same name; so when the names of two compositions
    coincide, which happens as soon as their two times agree to [P]
    decimals, the field of the earlier one is overwritten. *)
Theorem last_ftle_field_under_a_name_stays (fuel : nat) (j : json)
    (S : Settings) (precision : Z) (d : Direction)
    (fs : gmap string file_content) (i : nat) :
  read_settings j = inr S ->
  GetPrecision fuel (data_delta_t S) = Value precision ->
  chosen_direction S = Some d ->
  exit_code (snd (main fuel (Document j) fs)) = Some 0 ->
  (i < Z.to_nat (steps S))%nat ->
  (forall i', (i < i' < Z.to_nat (steps S))%nat ->
     ftle_name_of S precision d i' <> ftle_name_of S precision d i) ->
  exists F,
    ftle_files_written (fst (main fuel (Document j) fs)) !! i
    = Some (ftle_name_of S precision d i, F)
    /\ files_after (snd (main fuel (Document j) fs))
         !! ftle_name_of S precision d i
       = Some (FTLEFile F).
Proof.
  intros Hj HP Hd Hexit Hi Hlater.
  rewrite (main_runs fuel j S precision d fs Hj HP Hd) in *.
  destruct (initial_field_step d S) as [Hsd Hdir].
  unfold PrintSettings, emit in *. run_steps_in Hexit. run_steps.
  destruct (phases S precision (initial_time d S) (final_time d S)
              (signed_step d S) (prefix_of d) (initial_field d S, fs))
    as [es [f|[code fs']]] eqn:Hrun; [discriminate Hexit|].
  cbn [fst snd files_after].
  destruct (phases_split S precision d _ _ _ _ _ Hrun)
    as (esA & DA & fsA & esB & DB & HA & HB).
  destruct (step_flow_maps_phase_done S precision d _ fs Hsd Hdir)
    as (esA' & DA' & fsA' & HA' & _ & _ & HfA & HsdA & HdirA & _).
  rewrite HA in HA'. injection HA' as <- <- <-.
  change 0 with (Z.of_nat 0) in HB.
  destruct (fast_calculation_loop_last_write S precision d _ _ _ _ _ _ _ _
              HsdA HdirA HB) as [_ Hlast].
  destruct (Hlast i Hi) as (F & HF & Hfs).
  { intros i' Hi'. cbn [Nat.add]. apply Hlater. exact Hi'. }
  cbn [Nat.add] in HF, Hfs. exists F. split; [|exact Hfs].
  (* the trace of the phases *)
  unfold phases in Hrun. rewrite HA, bind_value in Hrun.
  cbn [fst snd] in Hrun. unfold fast_calculation_phase in Hrun.
  change (Z.of_nat 0) with 0 in HB. rewrite HB in Hrun.
  unfold emit in Hrun. run_steps_in Hrun.
  assert (Hes := f_equal fst Hrun). cbn [fst] in Hes. rewrite <- Hes.
  rewrite !ftle_files_written_app, HfA.
  change (ftle_files_written [Stdout ?a]) with (@nil (string * FTLEField)).
  change (ftle_files_written []) with (@nil (string * FTLEField)).
  cbn [app]. rewrite !app_nil_r. exact HF.
Qed.

End RunProperties.



Lemma file_names_of_a_run_witness :
  let j := sample_document 2 (Double.ratio 1 2) 2 "forward" in
  let S := sample_settings 2 (Double.ratio 1 2) 2 "forward" in
  read_settings j = inr S
  /\ GetPrecision 400 (data_delta_t S) = Value 1
  /\ chosen_direction S = Some Forward
  /\ forall p,
       In p (map fst (ftle_files_written
                        (fst (main (K := free_kernels) 400 (Document j) ∅)))) ->
       exists t_a t_b,
         p = (if is_absolute (file_prefix S) then ""
              else "fast_computation/results/ftle/")
             +:+ file_prefix S +:+ prefix_of Forward +:+ fixed 1 t_a
             +:+ "-" +:+ fixed 1 t_b +:+ ".txt".
Proof.
  cbv zeta.
  assert (H1 : read_settings (sample_document 2 (Double.ratio 1 2) 2 "forward")
               = inr (sample_settings 2 (Double.ratio 1 2) 2 "forward"))
    by reflexivity.
  assert (H2 : GetPrecision 400
                 (data_delta_t
                    (sample_settings 2 (Double.ratio 1 2) 2 "forward"))
               = Value 1) by (vm_compute; reflexivity).
  assert (H3 : chosen_direction
                 (sample_settings 2 (Double.ratio 1 2) 2 "forward")
               = Some Forward) by reflexivity.
  split; [exact H1|]. split; [exact H2|]. split; [exact H3|].
  exact (proj2 (file_names_of_a_run (K := free_kernels) 400 _ _ 1 Forward ∅
                  H1 H2 H3)).
Defined.


Lemma negative_steps_run_no_step_witness :
  let j := sample_document 2 (Double.ratio 1 2) (-3) "backward" in
  let S := sample_settings 2 (Double.ratio 1 2) (-3) "backward" in
  read_settings j = inr S
  /\ steps S < 0
  /\ GetPrecision 400 (data_delta_t S) = Value 1
  /\ chosen_direction S = Some Backward
  /\ exit_code (snd (main (K := free_kernels) 400 (Document j) ∅)) = Some 0
  /\ accessed_paths (fst (main (K := free_kernels) 400 (Document j) ∅))
     = [step_map_name S 1 (prefix_of Backward) (initial_time Backward S)].
Proof.
  cbv zeta.
  assert (H1 : read_settings
                 (sample_document 2 (Double.ratio 1 2) (-3) "backward")
               = inr (sample_settings 2 (Double.ratio 1 2) (-3) "backward"))
    by reflexivity.
  assert (H2 : steps (sample_settings 2 (Double.ratio 1 2) (-3) "backward")
               < 0) by reflexivity.
  assert (H3 : GetPrecision 400
                 (data_delta_t
                    (sample_settings 2 (Double.ratio 1 2) (-3) "backward"))
               = Value 1) by (vm_compute; reflexivity).
  assert (H4 : chosen_direction
                 (sample_settings 2 (Double.ratio 1 2) (-3) "backward")
               = Some Backward) by reflexivity.
  split; [exact H1|]. split; [exact H2|]. split; [exact H3|].
  split; [exact H4|].
  pose proof (negative_steps_run_no_step (K := free_kernels) 400 _ _ 1
                Backward ∅ H1 H2 H3 H4) as (Hexit & Hpaths & _).
  split; [exact Hexit|exact Hpaths].
Defined.

Lemma last_step_map_under_a_name_stays_witness :
  let j := sample_document 2 (Double.ratio 1 2) 2 "forward" in
  let S := sample_settings 2 (Double.ratio 1 2) 2 "forward" in
  read_settings j = inr S
  /\ GetPrecision 400 (data_delta_t S) = Value 1
  /\ chosen_direction S = Some Forward
  /\ exit_code (snd (main (K := free_kernels) 400 (Document j) ∅)) = Some 0
  /\ (1 <= Z.to_nat (steps S))%nat
  /\ (forall k', (1 < k' <= Z.to_nat (steps S))%nat ->
        step_map_name_of S 1 Forward k' <> step_map_name_of S 1 Forward 1)
  /\ files_after (snd (main (K := free_kernels) 400 (Document j) ∅))
       !! step_map_name_of S 1 Forward 1
     = Some (StepMapFile (step_map_of (K := free_kernels) S 1 Forward 1)).
Proof.
  cbv zeta.
  assert (H1 : read_settings (sample_document 2 (Double.ratio 1 2) 2 "forward")
               = inr (sample_settings 2 (Double.ratio 1 2) 2 "forward"))
    by reflexivity.
  assert (H2 : GetPrecision 400
                 (data_delta_t
                    (sample_settings 2 (Double.ratio 1 2) 2 "forward"))
               = Value 1) by (vm_compute; reflexivity).
  assert (H3 : chosen_direction
                 (sample_settings 2 (Double.ratio 1 2) 2 "forward")
               = Some Forward) by reflexivity.
  assert (H4 : exit_code
                 (snd (main (K := free_kernels) 400
                         (Document
                            (sample_document 2 (Double.ratio 1 2) 2 "forward"))
                         ∅)) = Some 0)
    by (vm_compute; reflexivity).
  assert (H5 : (1 <= Z.to_nat
                       (steps
                          (sample_settings 2 (Double.ratio 1 2) 2 "forward")))%nat)
    by (vm_compute; lia).
  assert (H6 : forall k',
             (1 < k' <= Z.to_nat
                          (steps
                             (sample_settings 2 (Double.ratio 1 2) 2
                                "forward")))%nat ->
             step_map_name_of
               (sample_settings 2 (Double.ratio 1 2) 2 "forward") 1 Forward k'
             <> step_map_name_of
                  (sample_settings 2 (Double.ratio 1 2) 2 "forward") 1
                  Forward 1).
  { intros k' Hk'.
    assert (E : k' = 2%nat) by (vm_compute in Hk'; lia).
    subst k'. vm_compute. discriminate. }
  split; [exact H1|]. split; [exact H2|]. split; [exact H3|].
  split; [exact H4|]. split; [exact H5|]. split; [exact H6|].
  exact (last_step_map_under_a_name_stays (K := free_kernels) 400 _ _ 1
           Forward ∅ 1 H1 H2 H3 H4 H5 H6).
Defined.

Lemma PrintSettings_finds_every_member_witness :
  let j := sample_document 2 (Double.ratio 1 2) 2 "sideways" in
  let S := sample_settings 2 (Double.ratio 1 2) 2 "sideways" in
  read_settings j = inr S
  /\ GetPrecision 400 (data_delta_t S) = Value 1
  /\ exists es,
       fst (main (K := free_kernels) 400 (Document j) ∅)
       = Stdout msg_number_of_threads
         :: Stdout (msg_settings (map (json_at j) recognized_keys)) :: es.
Proof.
  cbv zeta.
  assert (H1 : read_settings
                 (sample_document 2 (Double.ratio 1 2) 2 "sideways")
               = inr (sample_settings 2 (Double.ratio 1 2) 2 "sideways"))
    by reflexivity.
  assert (H2 : GetPrecision 400
                 (data_delta_t
                    (sample_settings 2 (Double.ratio 1 2) 2 "sideways"))
               = Value 1) by (vm_compute; reflexivity).
  split; [exact H1|]. split; [exact H2|].
  exact (proj2 (PrintSettings_finds_every_member (K := free_kernels) 400 _ _
                  1 ∅ H1 H2)).
Defined.


Lemma last_ftle_field_under_a_name_stays_witness :
  let j := sample_document 2 (Double.ratio 1 2) 2 "forward" in
  let S := sample_settings 2 (Double.ratio 1 2) 2 "forward" in
  read_settings j = inr S
  /\ GetPrecision 400 (data_delta_t S) = Value 1
  /\ chosen_direction S = Some Forward
  /\ exit_code (snd (main (K := free_kernels) 400 (Document j) ∅)) = Some 0
  /\ (1 < Z.to_nat (steps S))%nat
  /\ (forall i', (1 < i' < Z.to_nat (steps S))%nat ->
        ftle_name_of S 1 Forward i' <> ftle_name_of S 1 Forward 1)
  /\ exists F,
       ftle_files_written (fst (main (K := free_kernels) 400 (Document j) ∅))
         !! 1%nat
       = Some (ftle_name_of S 1 Forward 1, F)
       /\ files_after (snd (main (K := free_kernels) 400 (Document j) ∅))
            !! ftle_name_of S 1 Forward 1
          = Some (FTLEFile F).
Proof.
  cbv zeta.
  assert (H1 : read_settings (sample_document 2 (Double.ratio 1 2) 2 "forward")
               = inr (sample_settings 2 (Double.ratio 1 2) 2 "forward"))
    by reflexivity.
  assert (H2 : GetPrecision 400
                 (data_delta_t
                    (sample_settings 2 (Double.ratio 1 2) 2 "forward"))
               = Value 1) by (vm_compute; reflexivity).
  assert (H3 : chosen_direction
                 (sample_settings 2 (Double.ratio 1 2) 2 "forward")
               = Some Forward) by reflexivity.
  assert (H4 : exit_code
                 (snd (main (K := free_kernels) 400
                         (Document
                            (sample_document 2 (Double.ratio 1 2) 2 "forward"))
                         ∅)) = Some 0)
    by (vm_compute; reflexivity).
  assert (H5 : (1 < Z.to_nat
                      (steps
                         (sample_settings 2 (Double.ratio 1 2) 2 "forward")))%nat)
    by (vm_compute; lia).
  assert (H6 : forall i',
             (1 < i' < Z.to_nat
                         (steps
                            (sample_settings 2 (Double.ratio 1 2) 2
                               "forward")))%nat ->
             ftle_name_of
               (sample_settings 2 (Double.ratio 1 2) 2 "forward") 1 Forward i'
             <> ftle_name_of
                  (sample_settings 2 (Double.ratio 1 2) 2 "forward") 1
                  Forward 1).
  { intros i' Hi'. vm_compute in Hi'. lia. }
  split; [exact H1|]. split; [exact H2|]. split; [exact H3|].
  split; [exact H4|]. split; [exact H5|]. split; [exact H6|].
  exact (last_ftle_field_under_a_name_stays (K := free_kernels) 400 _ _ 1
           Forward ∅ 1 H1 H2 H3 H4 H5 H6).
Defined.

Section GeneratorProperties.

Context `{KD : CreateDiscreteData.Kernels}.
Context `{K : Kernels}.

Lemma snapshots_run (S : CreateDiscreteData.Settings) (precision : Z)
    (fuel : nat) :
  forall (t : double) (v : CreateDiscreteData.ContinuousVelocity),
    exists m : nat,
      (m <= fuel)%nat
      /\ fst (CreateDiscreteData.snapshots fuel S precision t v)
         = map (fun k =>
                  CreateDiscreteData.WriteToFile
                    (CreateDiscreteData.snapshot_name S precision
                       (load_time t (CreateDiscreteData.data_delta_t S) k))
                    (CreateDiscreteData.double_gyre S
                       (load_time t (CreateDiscreteData.data_delta_t S) k)))
             (seq 0 m)
      /\ (forall k, (k < m)%nat ->
            CreateDiscreteData.continues (CreateDiscreteData.t_max S)
              (load_time t (CreateDiscreteData.data_delta_t S) k) = true)
      /\ (if snd (CreateDiscreteData.snapshots fuel S precision t v)
          then CreateDiscreteData.continues (CreateDiscreteData.t_max S)
                 (load_time t (CreateDiscreteData.data_delta_t S) m) = false
          else m = fuel).
Proof.
  induction fuel as [|fuel IH]; intros t v.
  - exists 0%nat. repeat split; [lia|intros k Hk; lia].
  - cbn [CreateDiscreteData.snapshots].
    destruct (CreateDiscreteData.continues (CreateDiscreteData.t_max S) t)
      eqn:Hc.
    + cbv zeta.
      destruct (IH (Double.add t (CreateDiscreteData.data_delta_t S))
                  (CreateDiscreteData.UpdateTime t v))
        as (m & Hm & Hes & Hall & Hend).
      destruct (CreateDiscreteData.snapshots fuel S precision
                  (Double.add t (CreateDiscreteData.data_delta_t S))
                  (CreateDiscreteData.UpdateTime t v))
        as [es exited].
      cbn [fst snd] in *. exists (Datatypes.S m).
      split; [lia|]. split.
      { rewrite Hes.
        change (seq 0 (Datatypes.S m)) with (0%nat :: seq 1 m).
        rewrite List.map_cons, map_seq_succ. f_equal.
        apply List.map_ext. intros k. rewrite load_time_shift.
        reflexivity. }
      split.
      { intros [|k] Hk; [exact Hc|].
        rewrite <- load_time_shift. apply Hall. lia. }
      rewrite <- load_time_shift. destruct exited; [exact Hend|lia].
    + exists 0%nat. repeat split; [lia|intros k Hk; lia|exact Hc].
Qed.

Lemma snapshots_written_map {A : Type} (name : A -> string)
    (field : A -> CreateDiscreteData.Velocity) (l : list A) :
  CreateDiscreteData.snapshots_written
    (map (fun k => CreateDiscreteData.WriteToFile (name k) (field k)) l)
  = map (fun k => (name k, field k)) l.
Proof.
  induction l as [|k l IH]; [reflexivity|].
  cbn. unfold CreateDiscreteData.snapshots_written in IH. rewrite IH.
  reflexivity.
Qed.

Lemma generator_run (precision_fuel fuel : nat) (j : json)
    (S : CreateDiscreteData.Settings) (precision : Z) :
  CreateDiscreteData.read_settings j = inr S ->
  GetPrecision precision_fuel (CreateDiscreteData.data_delta_t S)
  = Value precision ->
  exists m : nat,
    (m <= fuel)%nat
    /\ CreateDiscreteData.snapshots_written
         (fst (CreateDiscreteData.main precision_fuel fuel (Document j)))
       = map (fun k =>
                (CreateDiscreteData.snapshot_name S precision
                   (load_time (CreateDiscreteData.t_min S)
                      (CreateDiscreteData.data_delta_t S) k),
                 CreateDiscreteData.double_gyre S
                   (load_time (CreateDiscreteData.t_min S)
                      (CreateDiscreteData.data_delta_t S) k)))
           (seq 0 m)
    /\ (forall k, (k < m)%nat ->
          CreateDiscreteData.continues (CreateDiscreteData.t_max S)
            (load_time (CreateDiscreteData.t_min S)
               (CreateDiscreteData.data_delta_t S) k) = true)
    /\ match snd (CreateDiscreteData.main precision_fuel fuel (Document j))
       with
       | CreateDiscreteData.Returned code =>
           code = 0
           /\ CreateDiscreteData.continues (CreateDiscreteData.t_max S)
                (load_time (CreateDiscreteData.t_min S)
                   (CreateDiscreteData.data_delta_t S) m) = false
       | CreateDiscreteData.Running => m = fuel
       | CreateDiscreteData.Threw _ => False
       end.
Proof.
  intros Hj HP. unfold CreateDiscreteData.main.
  rewrite Hj, HP.
  destruct (snapshots_run S precision fuel (CreateDiscreteData.t_min S)
              CreateDiscreteData.ContinuousVelocity_new)
    as (m & Hm & Hes & Hall & Hend).
  destruct (CreateDiscreteData.snapshots fuel S precision
              (CreateDiscreteData.t_min S)
              CreateDiscreteData.ContinuousVelocity_new) as [es exited].
  cbn [fst snd] in Hes, Hend. exists m. split; [exact Hm|].
  assert (Hw : CreateDiscreteData.snapshots_written es
               = map (fun k =>
                        (CreateDiscreteData.snapshot_name S precision
                           (load_time (CreateDiscreteData.t_min S)
                              (CreateDiscreteData.data_delta_t S) k),
                         CreateDiscreteData.double_gyre S
                           (load_time (CreateDiscreteData.t_min S)
                              (CreateDiscreteData.data_delta_t S) k)))
                   (seq 0 m)).
  { rewrite Hes. apply snapshots_written_map. }
  split.
  { destruct exited; cbn [fst]; [|exact Hw].
    unfold CreateDiscreteData.snapshots_written. rewrite omap_app.
    fold (CreateDiscreteData.snapshots_written es). rewrite Hw.
    apply app_nil_r. }
  split; [exact Hall|].
  destruct exited; cbn [snd]; [split; [reflexivity|exact Hend]|exact Hend].
Qed.

(** X11. The snapshots the generator writes. Their times are [t_min],
    [t_min + data_delta_t], [(t_min + data_delta_t) + data_delta_t], ...:
    each one is the sum of the previous one and the cadence, in double
    arithmetic. A snapshot is written for every such time as long as
    [t_max - t >= -1e-12], under the name
    [fast_computation/data/{file_prefix}{t:.Pf}.txt], which is the name
    [CreateDataFileName] of the first program gives to the snapshot of a
    flow field at that time. As soon as one of these times fails the
    condition, the loop exits and the program returns 0. *)
Theorem generator_writes_the_snapshots_of_successive_times
    (precision_fuel fuel : nat) (j : json)
    (S : CreateDiscreteData.Settings) (precision : Z) :
  CreateDiscreteData.read_settings j = inr S ->
  GetPrecision precision_fuel (CreateDiscreteData.data_delta_t S)
  = Value precision ->
  let time_of :=
    load_time (CreateDiscreteData.t_min S)
      (CreateDiscreteData.data_delta_t S) in
  let run := CreateDiscreteData.main precision_fuel fuel (Document j) in
  exists m : nat,
    (m <= fuel)%nat
    /\ CreateDiscreteData.snapshots_written (fst run)
       = map (fun k =>
                (CreateDiscreteData.snapshot_name S precision (time_of k),
                 CreateDiscreteData.double_gyre S (time_of k)))
           (seq 0 m)
    /\ (forall k, (k < m)%nat ->
          CreateDiscreteData.continues (CreateDiscreteData.t_max S)
            (time_of k) = true)
    /\ match snd run with
       | CreateDiscreteData.Returned code =>
           code = 0
           /\ CreateDiscreteData.continues (CreateDiscreteData.t_max S)
                (time_of m) = false
       | CreateDiscreteData.Running => m = fuel
       | CreateDiscreteData.Threw _ => False
       end
    /\ (forall m0, (m0 < fuel)%nat ->
          CreateDiscreteData.continues (CreateDiscreteData.t_max S)
            (time_of m0) = false ->
          snd run = CreateDiscreteData.Returned 0)
    /\ forall (k : nat) (D : DiscreteFlowField Position),
         GetTime D = time_of k ->
         CreateDiscreteData.snapshot_name S precision (time_of k)
         = CreateDataFileName "fast_computation/data"
             (CreateDiscreteData.file_prefix S) precision D.
Proof.
  intros Hj HP. cbv zeta.
  destruct (generator_run precision_fuel fuel j S precision Hj HP)
    as (m & Hm & Hw & Hall & Hend).
  exists m. split; [exact Hm|]. split; [exact Hw|]. split; [exact Hall|].
  split; [exact Hend|]. split.
  - intros m0 Hm0 Hstop.
    destruct (snd (CreateDiscreteData.main precision_fuel fuel (Document j)))
      as [code|f|].
    + destruct Hend as [-> _]. reflexivity.
    + destruct Hend.
    + subst m. rewrite (Hall m0 Hm0) in Hstop. discriminate Hstop.
  - intros k D HD.
    unfold CreateDataFileName, CreateDiscreteData.snapshot_name.
    rewrite HD. reflexivity.
Qed.

(** X12. When [t_max - t_min < -1e-12] (or is not a number), the generator
    writes no snapshot at all, prints its closing line and returns 0. *)
Theorem generator_writes_nothing_for_an_empty_window
    (precision_fuel fuel : nat) (j : json)
    (S : CreateDiscreteData.Settings) (precision : Z) :
  CreateDiscreteData.read_settings j = inr S ->
  GetPrecision precision_fuel (CreateDiscreteData.data_delta_t S)
  = Value precision ->
  CreateDiscreteData.continues (CreateDiscreteData.t_max S)
    (CreateDiscreteData.t_min S) = false ->
  CreateDiscreteData.main precision_fuel (Datatypes.S fuel) (Document j)
  = ([CreateDiscreteData.Stdout
        ("Discrete " +:+ CreateDiscreteData.file_prefix S
         +:+ " data written to files")],
     CreateDiscreteData.Returned 0).
Proof.
  intros Hj HP Hc. unfold CreateDiscreteData.main.
  rewrite Hj, HP. cbn [CreateDiscreteData.snapshots]. rewrite Hc.
  reflexivity.
Qed.

(** X13. When adding the cadence to [t_min] gives [t_min] again (a cadence
    of zero, or one too small to change the time) and [t_min] does not lie
    past [t_max], the generator never returns: whatever the number of
    iterations allowed, it is still in its loop and has written the
    snapshot of [t_min] at every one of them. *)
Theorem generator_never_returns_when_the_time_stands_still
    (precision_fuel fuel : nat) (j : json)
    (S : CreateDiscreteData.Settings) (precision : Z) :
  CreateDiscreteData.read_settings j = inr S ->
  GetPrecision precision_fuel (CreateDiscreteData.data_delta_t S)
  = Value precision ->
  CreateDiscreteData.continues (CreateDiscreteData.t_max S)
    (CreateDiscreteData.t_min S) = true ->
  Double.add (CreateDiscreteData.t_min S) (CreateDiscreteData.data_delta_t S)
  = CreateDiscreteData.t_min S ->
  CreateDiscreteData.main precision_fuel fuel (Document j)
  = (repeat
       (CreateDiscreteData.WriteToFile
          (CreateDiscreteData.snapshot_name S precision
             (CreateDiscreteData.t_min S))
          (CreateDiscreteData.double_gyre S (CreateDiscreteData.t_min S)))
       fuel,
     CreateDiscreteData.Running).
Proof.
  intros Hj HP Hc Hadd. unfold CreateDiscreteData.main. rewrite Hj, HP.
  assert (H : forall v,
              CreateDiscreteData.snapshots fuel S precision
                (CreateDiscreteData.t_min S) v
              = (repeat
                   (CreateDiscreteData.WriteToFile
                      (CreateDiscreteData.snapshot_name S precision
                         (CreateDiscreteData.t_min S))
                      (CreateDiscreteData.double_gyre S
                         (CreateDiscreteData.t_min S))) fuel, false)).
  { induction fuel as [|fuel IH]; intros v; [reflexivity|].
    cbn [CreateDiscreteData.snapshots]. cbv zeta.
    rewrite Hc, Hadd, IH. reflexivity. }
  rewrite H. reflexivity.
Qed.

Lemma json_at_other (j : json) (key k : string) (v : json_value) :
  key <> k -> json_at (<[key := v]> j) k = json_at j k.
Proof. intros H. unfold json_at. rewrite lookup_insert_ne by exact H. reflexivity. Qed.

Lemma json_at_deleted (j : json) (key k : string) :
  key <> k -> json_at (delete key j) k = json_at j k.
Proof. intros H. unfold json_at. rewrite lookup_delete_ne by exact H. reflexivity. Qed.

Lemma accepted_by_both (j : json) (S : Settings) :
  read_settings j = inr S ->
  CreateDiscreteData.read_settings j = inr (data_settings S).
Proof.
  intros H. unfold read_settings in H.
  repeat match type of H with
         | and_then ?c _ = _ =>
             let E := fresh "E" in
             destruct c eqn:E; cbn [and_then] in H; [discriminate H|]
         end.
  injection H as <-. unfold CreateDiscreteData.read_settings.
  repeat match goal with
         | E : ?c = inr _ |- context [and_then ?c _] =>
             rewrite E; cbn [and_then]
         end.
  reflexivity.
Qed.

(** X14. The generator reads the same document as the first program and
    needs less of it: every document the first program accepts, the
    generator accepts, with the same values; and it does not look at [nx],
    [ny], [steps] and [direction], nor at any key outside its ten: such a
    key can be set to anything or removed. *)
Theorem generator_reads_ten_of_the_settings (j : json) (key : string)
    (v : json_value) :
  (forall S, read_settings j = inr S ->
     CreateDiscreteData.read_settings j = inr (data_settings S))
  /\ (~ In key CreateDiscreteData.recognized_keys ->
      CreateDiscreteData.read_settings (<[key := v]> j)
      = CreateDiscreteData.read_settings j
      /\ CreateDiscreteData.read_settings (delete key j)
         = CreateDiscreteData.read_settings j)
  /\ (forall k, In k ["nx"; "ny"; "steps"; "direction"]%string ->
        In k recognized_keys
        /\ ~ In k CreateDiscreteData.recognized_keys).
Proof.
  split; [|split].
  - intros S H. apply accepted_by_both, H.
  - intros Hkey.
    assert (Hne : forall k, In k CreateDiscreteData.recognized_keys ->
                            key <> k).
    { intros k Hk ->. contradiction. }
    unfold CreateDiscreteData.read_settings, get_double, get_string.
    split.
    + rewrite !(json_at_other j key _ v) by (apply Hne; simpl; tauto).
      reflexivity.
    + rewrite !(json_at_deleted j key) by (apply Hne; simpl; tauto).
      reflexivity.
  - intros k Hk. simpl in Hk.
    destruct Hk as [<-|[<-|[<-|[<-|[]]]]];
      (split; [simpl; tauto|]);
      intros H; simpl in H;
      repeat (destruct H as [H|H]; [discriminate H|]); exact H.
Qed.

(** X15. A document in which one of the ten keys of the generator is
    missing ends the generator with an exception before any snapshot is
    written. *)
Theorem generator_rejects_a_missing_key (precision_fuel fuel : nat)
    (j : json) (key : string) :
  In key CreateDiscreteData.recognized_keys ->
  j !! key = None ->
  exists f,
    CreateDiscreteData.main precision_fuel fuel (Document j)
    = ([], CreateDiscreteData.Threw f).
Proof.
  intros Hin Hnone.
  destruct (get_missing j key Hnone) as ((f1 & H1) & _ & (f3 & H3)).
  unfold CreateDiscreteData.main, CreateDiscreteData.read_settings.
  repeat match goal with
         | |- context [and_then ?c _] =>
             let E := fresh "E" in
             destruct c eqn:E; cbn [and_then]; [eexists; reflexivity|]
         end.
  exfalso. simpl in Hin.
  repeat (destruct Hin as [<-|Hin]; [congruence|]).
  exact Hin.
Qed.

(** *** The files of the two programs *)








End GeneratorProperties.

Lemma generator_writes_the_snapshots_of_successive_times_witness :
  let j := sample_document 2 (Double.ratio 1 2) 2 "forward" in
  let S := data_settings (sample_settings 2 (Double.ratio 1 2) 2 "forward") in
  CreateDiscreteData.read_settings j = inr S
  /\ GetPrecision 400 (CreateDiscreteData.data_delta_t S) = Value 1
  /\ exists m : nat,
       (m <= 10)%nat
       /\ CreateDiscreteData.snapshots_written
            (fst (CreateDiscreteData.main (K := snapshot_times) 400 10
                    (Document j)))
          = map (fun k =>
                   (CreateDiscreteData.snapshot_name S 1
                      (load_time (CreateDiscreteData.t_min S)
                         (CreateDiscreteData.data_delta_t S) k),
                    load_time (CreateDiscreteData.t_min S)
                      (CreateDiscreteData.data_delta_t S) k))
              (seq 0 m).
Proof.
  cbv zeta.
  assert (H1 : CreateDiscreteData.read_settings
                 (sample_document 2 (Double.ratio 1 2) 2 "forward")
               = inr (data_settings
                        (sample_settings 2 (Double.ratio 1 2) 2 "forward")))
    by reflexivity.
  assert (H2 : GetPrecision 400
                 (CreateDiscreteData.data_delta_t
                    (data_settings
                       (sample_settings 2 (Double.ratio 1 2) 2 "forward")))
               = Value 1) by (vm_compute; reflexivity).
  split; [exact H1|]. split; [exact H2|].
  destruct (generator_writes_the_snapshots_of_successive_times
              (KD := snapshot_times) (K := free_kernels) 400 10 _ _ 1 H1 H2)
    as (m & Hm & Hw & _).
  exists m. split; [exact Hm|exact Hw].
Defined.

Lemma generator_writes_nothing_for_an_empty_window_witness :
  let j := sample_document (-1) (Double.ratio 1 2) 2 "forward" in
  let S := data_settings
             (sample_settings (-1) (Double.ratio 1 2) 2 "forward") in
  CreateDiscreteData.read_settings j = inr S
  /\ GetPrecision 400 (CreateDiscreteData.data_delta_t S) = Value 1
  /\ CreateDiscreteData.continues (CreateDiscreteData.t_max S)
       (CreateDiscreteData.t_min S) = false
  /\ CreateDiscreteData.main (K := snapshot_times) 400 1 (Document j)
     = ([CreateDiscreteData.Stdout
           "Discrete double_gyre_ data written to files"],
        CreateDiscreteData.Returned 0).
Proof.
  cbv zeta.
  assert (H1 : CreateDiscreteData.read_settings
                 (sample_document (-1) (Double.ratio 1 2) 2 "forward")
               = inr (data_settings
                        (sample_settings (-1) (Double.ratio 1 2) 2 "forward")))
    by reflexivity.
  assert (H2 : GetPrecision 400
                 (CreateDiscreteData.data_delta_t
                    (data_settings
                       (sample_settings (-1) (Double.ratio 1 2) 2 "forward")))
               = Value 1) by (vm_compute; reflexivity).
  assert (H3 : CreateDiscreteData.continues
                 (CreateDiscreteData.t_max
                    (data_settings
                       (sample_settings (-1) (Double.ratio 1 2) 2 "forward")))
                 (CreateDiscreteData.t_min
                    (data_settings
                       (sample_settings (-1) (Double.ratio 1 2) 2 "forward")))
               = false) by (vm_compute; reflexivity).
  split; [exact H1|]. split; [exact H2|]. split; [exact H3|].
  exact (generator_writes_nothing_for_an_empty_window (KD := snapshot_times)
           400 0 _ _ 1 H1 H2 H3).
Defined.

Lemma generator_never_returns_when_the_time_stands_still_witness :
  let j := sample_document 2 Double.zero 2 "forward" in
  let S := data_settings (sample_settings 2 Double.zero 2 "forward") in
  CreateDiscreteData.read_settings j = inr S
  /\ GetPrecision 400 (CreateDiscreteData.data_delta_t S) = Value 0
  /\ CreateDiscreteData.continues (CreateDiscreteData.t_max S)
       (CreateDiscreteData.t_min S) = true
  /\ Double.add (CreateDiscreteData.t_min S)
       (CreateDiscreteData.data_delta_t S)
     = CreateDiscreteData.t_min S
  /\ CreateDiscreteData.main (K := snapshot_times) 400 1000 (Document j)
     = (repeat
          (CreateDiscreteData.WriteToFile
             (CreateDiscreteData.snapshot_name S 0
                (CreateDiscreteData.t_min S))
             (CreateDiscreteData.t_min S)) 1000,
        CreateDiscreteData.Running).
Proof.
  cbv zeta.
  assert (H1 : CreateDiscreteData.read_settings
                 (sample_document 2 Double.zero 2 "forward")
               = inr (data_settings
                        (sample_settings 2 Double.zero 2 "forward")))
    by reflexivity.
  assert (H2 : GetPrecision 400
                 (CreateDiscreteData.data_delta_t
                    (data_settings
                       (sample_settings 2 Double.zero 2 "forward")))
               = Value 0) by (vm_compute; reflexivity).
  assert (H3 : CreateDiscreteData.continues
                 (CreateDiscreteData.t_max
                    (data_settings
                       (sample_settings 2 Double.zero 2 "forward")))
                 (CreateDiscreteData.t_min
                    (data_settings
                       (sample_settings 2 Double.zero 2 "forward")))
               = true) by (vm_compute; reflexivity).
  assert (H4 : Double.add
                 (CreateDiscreteData.t_min
                    (data_settings
                       (sample_settings 2 Double.zero 2 "forward")))
                 (CreateDiscreteData.data_delta_t
                    (data_settings
                       (sample_settings 2 Double.zero 2 "forward")))
               = CreateDiscreteData.t_min
                   (data_settings
                      (sample_settings 2 Double.zero 2 "forward")))
    by (vm_compute; reflexivity).
  split; [exact H1|]. split; [exact H2|]. split; [exact H3|].
  split; [exact H4|].
  exact (generator_never_returns_when_the_time_stands_still
           (KD := snapshot_times) 400 1000 _ _ 0 H1 H2 H3 H4).
Defined.

Lemma generator_rejects_a_missing_key_witness :
  let j := delete "t_max"%string
             (sample_document 2 (Double.ratio 1 2) 2 "forward") in
  In "t_max"%string CreateDiscreteData.recognized_keys
  /\ j !! "t_max"%string = None
  /\ exists f,
       CreateDiscreteData.main (K := snapshot_times) 400 10 (Document j)
       = ([], CreateDiscreteData.Threw f).
Proof.
  cbv zeta.
  assert (H1 : In "t_max"%string CreateDiscreteData.recognized_keys)
    by (simpl; tauto).
  assert (H2 : delete "t_max"%string
                 (sample_document 2 (Double.ratio 1 2) 2 "forward")
               !! "t_max"%string = None) by (vm_compute; reflexivity).
  split; [exact H1|]. split; [exact H2|].
  exact (generator_rejects_a_missing_key (KD := snapshot_times) 400 10 _ _
           H1 H2).
Defined.



(** ** More runs *)

(** The generator on the configuration of the README: 101 snapshots. The
    time of the last one is the sum of a hundred additions of 0.2, which is
    below 20; it is printed as [20.0]. *)
Example generator_readme_run :
  let run := CreateDiscreteData.main (K := snapshot_times) 400 200
               (Document (sample_document 20 (Double.ratio 2 10) 100 "forward")) in
  snd run = CreateDiscreteData.Returned 0
  /\ length (CreateDiscreteData.snapshots_written (fst run)) = 101%nat
  /\ last (CreateDiscreteData.snapshots_written (fst run))
     = Some ("fast_computation/data/double_gyre_20.0.txt"%string,
             load_time (Double.of_int 0) (Double.ratio 2 10) 100)
  /\ Double.ltb (load_time (Double.of_int 0) (Double.ratio 2 10) 100)
       (Double.of_int 20) = true.
Proof. vm_compute. repeat split. Qed.

(** With the cadence 0.07 over [0, 7], the sum of a hundred additions lies
    above 7; the tolerance of the loop lets it through, and the last
    snapshot carries the excess in its name. *)
Example generator_cadence_seven_hundredths_run :
  let run := CreateDiscreteData.main (K := snapshot_times) 400 200
               (Document (sample_document 7 (Double.ratio 7 100) 100 "forward")) in
  snd run = CreateDiscreteData.Returned 0
  /\ length (CreateDiscreteData.snapshots_written (fst run)) = 101%nat
  /\ last (map fst (CreateDiscreteData.snapshots_written (fst run)))
     = Some "fast_computation/data/double_gyre_7.00000000000000888.txt"%string
  /\ Double.ltb (Double.of_int 7)
       (load_time (Double.of_int 0) (Double.ratio 7 100) 100) = true.
Proof. vm_compute. repeat split. Qed.

(** Four steps over [0, 1] with the data cadence 1: the precision is 0, the
    five step flow maps go to two names, and the run ends with exit code 0
    on the maps written last under each name. *)
Example colliding_step_map_names :
  let S := sample_settings 1 (Double.of_int 1) 4 "forward" in
  let run := main (K := free_kernels) 400
               (Document (sample_document 1 (Double.of_int 1) 4 "forward"))
               ∅ in
  exit_code (snd run) = Some 0
  /\ names_written S 0 Forward
     = [ "fast_computation/step_flow_maps/double_gyre_positive_0.bin";
         "fast_computation/step_flow_maps/double_gyre_positive_0.bin";
         "fast_computation/step_flow_maps/double_gyre_positive_0.bin";
         "fast_computation/step_flow_maps/double_gyre_positive_1.bin";
         "fast_computation/step_flow_maps/double_gyre_positive_1.bin" ]%string
  /\ files_after (snd run)
       !! "fast_computation/step_flow_maps/double_gyre_positive_0.bin"%string
     = Some (StepMapFile (step_map_of (K := free_kernels) S 0 Forward 2))
  /\ files_after (snd run)
       !! "fast_computation/step_flow_maps/double_gyre_positive_1.bin"%string
     = Some (StepMapFile (step_map_of (K := free_kernels) S 0 Forward 4)).
Proof. vm_compute. repeat split. Qed.

(** In the same run the four FTLE fields go to two names: the origin times
    0.5, 0.25 and 0 are all printed as [0], and the file [..._0-1.txt] holds
    the field of the last composition only. *)
Example colliding_ftle_names :
  let run := main (K := free_kernels) 400
               (Document (sample_document 1 (Double.of_int 1) 4 "forward"))
               ∅ in
  map fst (ftle_files_written (fst run))
  = [ "fast_computation/results/ftle/double_gyre_positive_1-1.txt";
      "fast_computation/results/ftle/double_gyre_positive_0-1.txt";
      "fast_computation/results/ftle/double_gyre_positive_0-1.txt";
      "fast_computation/results/ftle/double_gyre_positive_0-1.txt" ]%string
  /\ files_after (snd run)
       !! "fast_computation/results/ftle/double_gyre_positive_0-1.txt"%string
     = option_map (fun w => FTLEFile (snd w))
         (ftle_files_written (fst run) !! 3%nat)
  /\ option_map snd (ftle_files_written (fst run) !! 1%nat)
     <> option_map snd (ftle_files_written (fst run) !! 3%nat).
Proof.
  vm_compute. split; [reflexivity|]. split; [reflexivity|]. discriminate.
Qed.

(** The names the compositions ask for are served with the cadence 0.2,
    and are not with the cadence 0.07: the first composition asks for
    [...6.29999999999999982.bin] where the first phase wrote
    [...6.30000000000000071.bin]. *)
Example names_asked_in_two_runs :
  asks_only_written (sample_settings 2 (Double.ratio 2 10) 10 "forward")
    1 Forward = true
  /\ asks_only_written (sample_settings 7 (Double.ratio 7 100) 10 "forward")
       17 Forward = false
  /\ names_asked_by (sample_settings 7 (Double.ratio 7 100) 10 "forward")
       17 Forward 0
     = [ "fast_computation/step_flow_maps/double_gyre_positive_6.29999999999999982.bin" ]%string
  /\ nth 9 (names_written
              (sample_settings 7 (Double.ratio 7 100) 10 "forward") 17
              Forward) ""%string
     = "fast_computation/step_flow_maps/double_gyre_positive_6.30000000000000071.bin"%string.
Proof. vm_compute. repeat split. Qed.

(** Where a composition asks for a name the first phase did not write, a
    file left behind under that name is used: ten steps over [0, 7] with
    the cadence 0.07 stop at the first composition in an empty directory,
    and go one composition further, to an FTLE file built on the file left
    behind, in a directory that holds it. *)
Example a_file_left_behind_is_used :
  let j := sample_document 7 (Double.ratio 7 100) 10 "forward" in
  let run := main (K := free_kernels) 400 (Document j) ∅ in
  let run' := main (K := free_kernels) 400 (Document j) stale_files in
  thrown (snd run)
  = Some (io_error
            "fast_computation/step_flow_maps/double_gyre_positive_6.29999999999999982.bin")
  /\ ftle_files_written (fst run) = []
  /\ thrown (snd run')
     = Some (io_error
               "fast_computation/step_flow_maps/double_gyre_positive_5.59999999999999964.bin")
  /\ map fst (ftle_files_written (fst run'))
     = [ "fast_computation/results/ftle/double_gyre_positive_6.29999999999999982-7.00000000000000000.txt" ]%string.
Proof. vm_compute. repeat split. Qed.
